(** * Dozy: control core of the WiFi DIN-rail switch firmware (dozy.ino)

    A shallow embedding of the firmware's control logic: the globals of
    the sketch become one record, every function of the sketch becomes a
    computation in a small state-and-trace monad, and the values the
    sketch obtains from the hardware and from its libraries (switch level,
    millisecond counter, WiFi status, broker answers, callbacks) are read
    from an environment record. *)

From Stdlib Require Import ZArith List Bool String Ascii Lia.
Import ListNotations.
Local Open Scope string_scope.
Local Open Scope list_scope.
Local Open Scope Z_scope.

(** ** Machine arithmetic *)

(** [unsigned long] is 32 bits wide on the ESP8285. *)
Definition wrap32 (x : Z) : Z := x mod 2 ^ 32.

(** [int] is 32 bits wide, two's complement. *)
Definition wrap_int (x : Z) : Z := (x + 2 ^ 31) mod 2 ^ 32 - 2 ^ 31.

(** ** Constants of the sketch *)

Inductive Pin : Type := LED_GREEN | LED_RED | RELAY | SWITCH.

Definition HIGH : bool := true.
Definition LOW : bool := false.

Definition CONFIG_TIMEOUT_MS : Z := 300000.
Definition OTA_TIMEOUT_MS : Z := 300000.
Definition LOOP_DELAY_MS : Z := 10.
Definition MANUAL_SETUP_MAX_DELAY_MS : Z := 500.
Definition MANUAL_SETUP_COUNTER : Z := 5.

Definition CMD_ON : string := "1".
Definition CMD_OFF : string := "0".
Definition CMD_SETUP : string := "set".
Definition CMD_OTA : string := "ota".
Definition CMD_RESET : string := "rst".

(** ** Device state

    The globals of the sketch under their own names, followed by the
    state the sketch keeps in the hardware and in its libraries: the
    output latches of the three output pins, the connection state of
    [mqttClient], the period of [ledTicker] when it is attached, and
    whether [ESP.restart()] was executed. The configuration strings
    (server, credentials, topics) take no part in the control logic and
    are left out. *)

Record Device : Type := mkDevice {
  offline : bool;
  wifiManagerSetupRunning : bool;
  wifiManagerSetupStart : Z;
  otaRunning : bool;
  otaStart : Z;
  restart : bool;
  mqttConnectAttempt : Z;
  mqttConnectDelay : Z;
  momentarySwitch : bool;
  sState : bool;
  lState : bool;
  gpioTrigger : bool;
  manualSetupActivatorTime : Z;
  manualSetupModeCounter : Z;
  pin_RELAY : bool;
  pin_LED_GREEN : bool;
  pin_LED_RED : bool;
  mqtt_connected : bool;
  ledTicker : option Z;
  rebooted : bool
}.

Definition set_offline (v : bool) (d : Device) : Device :=
  mkDevice v (wifiManagerSetupRunning d) (wifiManagerSetupStart d)
    (otaRunning d) (otaStart d) (restart d) (mqttConnectAttempt d)
    (mqttConnectDelay d) (momentarySwitch d) (sState d) (lState d)
    (gpioTrigger d) (manualSetupActivatorTime d) (manualSetupModeCounter d)
    (pin_RELAY d) (pin_LED_GREEN d) (pin_LED_RED d) (mqtt_connected d)
    (ledTicker d) (rebooted d).
Definition set_wifiManagerSetupRunning (v : bool) (d : Device) : Device :=
  mkDevice (offline d) v (wifiManagerSetupStart d) (otaRunning d) (otaStart d)
    (restart d) (mqttConnectAttempt d) (mqttConnectDelay d)
    (momentarySwitch d) (sState d) (lState d) (gpioTrigger d)
    (manualSetupActivatorTime d) (manualSetupModeCounter d) (pin_RELAY d)
    (pin_LED_GREEN d) (pin_LED_RED d) (mqtt_connected d) (ledTicker d)
    (rebooted d).
Definition set_wifiManagerSetupStart (v : Z) (d : Device) : Device :=
  mkDevice (offline d) (wifiManagerSetupRunning d) v (otaRunning d)
    (otaStart d) (restart d) (mqttConnectAttempt d) (mqttConnectDelay d)
    (momentarySwitch d) (sState d) (lState d) (gpioTrigger d)
    (manualSetupActivatorTime d) (manualSetupModeCounter d) (pin_RELAY d)
    (pin_LED_GREEN d) (pin_LED_RED d) (mqtt_connected d) (ledTicker d)
    (rebooted d).
Definition set_otaRunning (v : bool) (d : Device) : Device :=
  mkDevice (offline d) (wifiManagerSetupRunning d) (wifiManagerSetupStart d) v
    (otaStart d) (restart d) (mqttConnectAttempt d) (mqttConnectDelay d)
    (momentarySwitch d) (sState d) (lState d) (gpioTrigger d)
    (manualSetupActivatorTime d) (manualSetupModeCounter d) (pin_RELAY d)
    (pin_LED_GREEN d) (pin_LED_RED d) (mqtt_connected d) (ledTicker d)
    (rebooted d).
Definition set_otaStart (v : Z) (d : Device) : Device :=
  mkDevice (offline d) (wifiManagerSetupRunning d) (wifiManagerSetupStart d)
    (otaRunning d) v (restart d) (mqttConnectAttempt d) (mqttConnectDelay d)
    (momentarySwitch d) (sState d) (lState d) (gpioTrigger d)
    (manualSetupActivatorTime d) (manualSetupModeCounter d) (pin_RELAY d)
    (pin_LED_GREEN d) (pin_LED_RED d) (mqtt_connected d) (ledTicker d)
    (rebooted d).
Definition set_restart (v : bool) (d : Device) : Device :=
  mkDevice (offline d) (wifiManagerSetupRunning d) (wifiManagerSetupStart d)
    (otaRunning d) (otaStart d) v (mqttConnectAttempt d) (mqttConnectDelay d)
    (momentarySwitch d) (sState d) (lState d) (gpioTrigger d)
    (manualSetupActivatorTime d) (manualSetupModeCounter d) (pin_RELAY d)
    (pin_LED_GREEN d) (pin_LED_RED d) (mqtt_connected d) (ledTicker d)
    (rebooted d).
Definition set_mqttConnectAttempt (v : Z) (d : Device) : Device :=
  mkDevice (offline d) (wifiManagerSetupRunning d) (wifiManagerSetupStart d)
    (otaRunning d) (otaStart d) (restart d) v (mqttConnectDelay d)
    (momentarySwitch d) (sState d) (lState d) (gpioTrigger d)
    (manualSetupActivatorTime d) (manualSetupModeCounter d) (pin_RELAY d)
    (pin_LED_GREEN d) (pin_LED_RED d) (mqtt_connected d) (ledTicker d)
    (rebooted d).
Definition set_mqttConnectDelay (v : Z) (d : Device) : Device :=
  mkDevice (offline d) (wifiManagerSetupRunning d) (wifiManagerSetupStart d)
    (otaRunning d) (otaStart d) (restart d) (mqttConnectAttempt d) v
    (momentarySwitch d) (sState d) (lState d) (gpioTrigger d)
    (manualSetupActivatorTime d) (manualSetupModeCounter d) (pin_RELAY d)
    (pin_LED_GREEN d) (pin_LED_RED d) (mqtt_connected d) (ledTicker d)
    (rebooted d).
Definition set_momentarySwitch (v : bool) (d : Device) : Device :=
  mkDevice (offline d) (wifiManagerSetupRunning d) (wifiManagerSetupStart d)
    (otaRunning d) (otaStart d) (restart d) (mqttConnectAttempt d)
    (mqttConnectDelay d) v (sState d) (lState d) (gpioTrigger d)
    (manualSetupActivatorTime d) (manualSetupModeCounter d) (pin_RELAY d)
    (pin_LED_GREEN d) (pin_LED_RED d) (mqtt_connected d) (ledTicker d)
    (rebooted d).
Definition set_sState (v : bool) (d : Device) : Device :=
  mkDevice (offline d) (wifiManagerSetupRunning d) (wifiManagerSetupStart d)
    (otaRunning d) (otaStart d) (restart d) (mqttConnectAttempt d)
    (mqttConnectDelay d) (momentarySwitch d) v (lState d) (gpioTrigger d)
    (manualSetupActivatorTime d) (manualSetupModeCounter d) (pin_RELAY d)
    (pin_LED_GREEN d) (pin_LED_RED d) (mqtt_connected d) (ledTicker d)
    (rebooted d).
Definition set_lState (v : bool) (d : Device) : Device :=
  mkDevice (offline d) (wifiManagerSetupRunning d) (wifiManagerSetupStart d)
    (otaRunning d) (otaStart d) (restart d) (mqttConnectAttempt d)
    (mqttConnectDelay d) (momentarySwitch d) (sState d) v (gpioTrigger d)
    (manualSetupActivatorTime d) (manualSetupModeCounter d) (pin_RELAY d)
    (pin_LED_GREEN d) (pin_LED_RED d) (mqtt_connected d) (ledTicker d)
    (rebooted d).
Definition set_gpioTrigger (v : bool) (d : Device) : Device :=
  mkDevice (offline d) (wifiManagerSetupRunning d) (wifiManagerSetupStart d)
    (otaRunning d) (otaStart d) (restart d) (mqttConnectAttempt d)
    (mqttConnectDelay d) (momentarySwitch d) (sState d) (lState d) v
    (manualSetupActivatorTime d) (manualSetupModeCounter d) (pin_RELAY d)
    (pin_LED_GREEN d) (pin_LED_RED d) (mqtt_connected d) (ledTicker d)
    (rebooted d).
Definition set_manualSetupActivatorTime (v : Z) (d : Device) : Device :=
  mkDevice (offline d) (wifiManagerSetupRunning d) (wifiManagerSetupStart d)
    (otaRunning d) (otaStart d) (restart d) (mqttConnectAttempt d)
    (mqttConnectDelay d) (momentarySwitch d) (sState d) (lState d)
    (gpioTrigger d) v (manualSetupModeCounter d) (pin_RELAY d)
    (pin_LED_GREEN d) (pin_LED_RED d) (mqtt_connected d) (ledTicker d)
    (rebooted d).
Definition set_manualSetupModeCounter (v : Z) (d : Device) : Device :=
  mkDevice (offline d) (wifiManagerSetupRunning d) (wifiManagerSetupStart d)
    (otaRunning d) (otaStart d) (restart d) (mqttConnectAttempt d)
    (mqttConnectDelay d) (momentarySwitch d) (sState d) (lState d)
    (gpioTrigger d) (manualSetupActivatorTime d) v (pin_RELAY d)
    (pin_LED_GREEN d) (pin_LED_RED d) (mqtt_connected d) (ledTicker d)
    (rebooted d).
Definition set_pin_RELAY (v : bool) (d : Device) : Device :=
  mkDevice (offline d) (wifiManagerSetupRunning d) (wifiManagerSetupStart d)
    (otaRunning d) (otaStart d) (restart d) (mqttConnectAttempt d)
    (mqttConnectDelay d) (momentarySwitch d) (sState d) (lState d)
    (gpioTrigger d) (manualSetupActivatorTime d) (manualSetupModeCounter d) v
    (pin_LED_GREEN d) (pin_LED_RED d) (mqtt_connected d) (ledTicker d)
    (rebooted d).
Definition set_pin_LED_GREEN (v : bool) (d : Device) : Device :=
  mkDevice (offline d) (wifiManagerSetupRunning d) (wifiManagerSetupStart d)
    (otaRunning d) (otaStart d) (restart d) (mqttConnectAttempt d)
    (mqttConnectDelay d) (momentarySwitch d) (sState d) (lState d)
    (gpioTrigger d) (manualSetupActivatorTime d) (manualSetupModeCounter d)
    (pin_RELAY d) v (pin_LED_RED d) (mqtt_connected d) (ledTicker d)
    (rebooted d).
Definition set_pin_LED_RED (v : bool) (d : Device) : Device :=
  mkDevice (offline d) (wifiManagerSetupRunning d) (wifiManagerSetupStart d)
    (otaRunning d) (otaStart d) (restart d) (mqttConnectAttempt d)
    (mqttConnectDelay d) (momentarySwitch d) (sState d) (lState d)
    (gpioTrigger d) (manualSetupActivatorTime d) (manualSetupModeCounter d)
    (pin_RELAY d) (pin_LED_GREEN d) v (mqtt_connected d) (ledTicker d)
    (rebooted d).
Definition set_mqtt_connected (v : bool) (d : Device) : Device :=
  mkDevice (offline d) (wifiManagerSetupRunning d) (wifiManagerSetupStart d)
    (otaRunning d) (otaStart d) (restart d) (mqttConnectAttempt d)
    (mqttConnectDelay d) (momentarySwitch d) (sState d) (lState d)
    (gpioTrigger d) (manualSetupActivatorTime d) (manualSetupModeCounter d)
    (pin_RELAY d) (pin_LED_GREEN d) (pin_LED_RED d) v (ledTicker d)
    (rebooted d).
Definition set_ledTicker (v : option Z) (d : Device) : Device :=
  mkDevice (offline d) (wifiManagerSetupRunning d) (wifiManagerSetupStart d)
    (otaRunning d) (otaStart d) (restart d) (mqttConnectAttempt d)
    (mqttConnectDelay d) (momentarySwitch d) (sState d) (lState d)
    (gpioTrigger d) (manualSetupActivatorTime d) (manualSetupModeCounter d)
    (pin_RELAY d) (pin_LED_GREEN d) (pin_LED_RED d) (mqtt_connected d) v
    (rebooted d).
Definition set_rebooted (v : bool) (d : Device) : Device :=
  mkDevice (offline d) (wifiManagerSetupRunning d) (wifiManagerSetupStart d)
    (otaRunning d) (otaStart d) (restart d) (mqttConnectAttempt d)
    (mqttConnectDelay d) (momentarySwitch d) (sState d) (lState d)
    (gpioTrigger d) (manualSetupActivatorTime d) (manualSetupModeCounter d)
    (pin_RELAY d) (pin_LED_GREEN d) (pin_LED_RED d) (mqtt_connected d)
    (ledTicker d) v.

(** Globals without an initialiser are zero-initialised; the output
    latches are low after reset. *)
Definition boot : Device :=
  mkDevice true false 0 false 0 false 0 0 false false false false 0 0
    LOW LOW LOW false None false.

(** ** Environment

    What one pass of [setup()] or [loop()] obtains from outside. Times are
    milliseconds since power-up as unbounded integers; [millis] is the
    32-bit counter the sketch reads. *)

Record Env : Type := mkEnv {
  switch_low : bool;          (* digitalRead(SWITCH) == LOW *)
  t_gesture : Z;              (* time of millis() at the delay computation in gpioLoop *)
  t_gesture_stamp : Z;        (* time of millis() at the timestamp update in gpioLoop *)
  ap_started : option Z;      (* WiFiManager runs the AP callback when asked for a
                                 portal; the time of the callback's millis() *)
  config_momentary : option bool; (* "momentary_switch" of /config.json, when readable *)
  params_saved : option bool; (* wifiManager.process() runs the save-params callback;
                                 the value of the momentary checkbox *)
  t_portal : Z;               (* time of millis() in wifimanagerLoop *)
  wifi_connected : bool;      (* WiFi.status() == WL_CONNECTED *)
  t_reconnect : Z;            (* time of millis() at the backoff test in mqttReconnect *)
  t_attempt : Z;              (* time of millis() recorded as mqttConnectAttempt *)
  connect_ok : bool;          (* result of mqttClient.connect(...) *)
  inbound : list string;      (* payloads mqttClient.loop() hands to mqttCallback *)
  t_command : Z;              (* time of millis() read by an "ota" command *)
  ota_progress : nat;         (* progress callbacks run by ArduinoOTA.handle() *)
  t_ota : Z;                  (* time of millis() at the OTA timeout test in loop *)
  link_lost : bool;           (* the broker connection dropped since the last pass *)
  led_ticks : nat             (* ledTick callbacks the Ticker ran since the last pass *)
}.

(** ** Trace

    Calls into the hardware and the libraries, in program order; a call
    of [millis()] carries its call site. Three markers stand for program
    points of the sketch itself: [PublishRequest] for the entry of
    [mqttCommunicate] (with [lState] and [gpioTrigger] at entry),
    [StartWifiManager] for the entry of [startWifiManager], and
    [RestartCheck] for the test of [restart] that ends [loop()]. *)

Inductive Site : Type :=
| AtGesture | AtGestureStamp | AtPortalStart | AtPortalTimeout
| AtReconnect | AtAttempt | AtOtaCommand | AtOtaTimeout.

Inductive Event : Type :=
| DigitalRead (p : Pin)
| DigitalWrite (p : Pin) (level : bool)
| WmProcess
| WmAutoConnect
| WmStartConfigPortal
| WmStopConfigPortal
| Millis (site : Site)
| WiFiStatus
| MdnsSearch
| MdnsLoop
| MqttSetServer
| MqttConnect
| MqttSubscribe
| MqttLoop
| MqttPublish (payload : string)
| OtaHandle
| OtaBegin
| TickerAttach (ms : Z)
| ConfigWrite
| Delay (ms : Z)
| RestartCheck
| EspRestart
| PublishRequest (on flagged : bool)
| StartWifiManager (onDemand : bool).

(** ** The monad: state passing with an output trace *)

Record Res (A : Type) : Type := mkRes { val : A; st : Device; out : list Event }.
Arguments mkRes {A} _ _ _.
Arguments val {A} _.
Arguments st {A} _.
Arguments out {A} _.

Definition M (A : Type) : Type := Device -> Res A.

Definition ret {A : Type} (a : A) : M A := fun d => mkRes a d [].

Definition bind {A B : Type} (m : M A) (f : A -> M B) : M B :=
  fun d =>
    match m d with
    | mkRes a d1 t1 =>
        match f a d1 with
        | mkRes b d2 t2 => mkRes b d2 (t1 ++ t2)
        end
    end.

Definition get : M Device := fun d => mkRes d d [].
Definition modify (f : Device -> Device) : M unit := fun d => mkRes tt (f d) [].
Definition emit (ev : Event) : M unit := fun d => mkRes tt d [ev].
Definition when (b : bool) (m : M unit) : M unit := if b then m else ret tt.

Declare Scope dozy_scope.
Delimit Scope dozy_scope with dozy.
Notation "x <- m ;; k" := (bind m (fun x => k))
  (at level 61, m at next level, right associativity) : dozy_scope.
Notation "m ;; k" := (bind m (fun _ => k))
  (at level 61, right associativity) : dozy_scope.
Local Open Scope dozy_scope.

Definition exec {A : Type} (m : M A) (d : Device) : Device := st (m d).
Definition trace {A : Type} (m : M A) (d : Device) : list Event := out (m d).

Fixpoint repeat_m (n : nat) (m : M unit) : M unit :=
  match n with
  | O => ret tt
  | S n' => m;; repeat_m n' m
  end.

(** ** Hardware primitives *)

Definition millis (site : Site) (t : Z) : M Z :=
  emit (Millis site);; ret (wrap32 t).

Definition digitalWrite (p : Pin) (level : bool) : M unit :=
  emit (DigitalWrite p level);;
  modify (match p with
          | RELAY => set_pin_RELAY level
          | LED_GREEN => set_pin_LED_GREEN level
          | LED_RED => set_pin_LED_RED level
          | SWITCH => fun d => d
          end).

(** ** Arduino [String] operations used by the dispatcher *)

(** The C string held by a buffer: its bytes up to the first NUL. *)
Fixpoint c_str (s : string) : string :=
  match s with
  | EmptyString => EmptyString
  | String c s' => if Ascii.eqb c zero then EmptyString else String c (c_str s')
  end.

(** The buffer [strncpy] fills from the first [n] bytes of the payload and
    the sketch then terminates with a NUL; [c_str] reads it. *)
Definition strncpy (payload : string) (n : nat) : string :=
  substring 0 n payload.

Definition startsWith (s pre : string) : bool := prefix pre s.

(** ** The sketch

    One definition per function of dozy.ino, statement by statement.
    Calls that configure the hardware or a library and have no part in
    the control logic ([pinMode], [WiFi.mode], the registration of
    callbacks, the configuration strings and their parameters) are left
    out. *)

(** [mqttCommunicate] *)
Definition mqttCommunicate : M unit :=
  d <- get;;
  emit (PublishRequest (lState d) (gpioTrigger d));;
  when (negb (offline d) && mqtt_connected d)
    (let mqttMsg :=
       String.append (if lState d then "1" else "0")
                     (if gpioTrigger d then "." else "") in
     modify (set_gpioTrigger false);;
     emit (MqttPublish mqttMsg)).

(** [enableL] *)
Definition enableL : M unit :=
  digitalWrite RELAY HIGH;;
  digitalWrite LED_GREEN LOW;;
  modify (set_lState true);;
  mqttCommunicate.

(** [disableL] *)
Definition disableL : M unit :=
  digitalWrite RELAY LOW;;
  digitalWrite LED_GREEN HIGH;;
  modify (set_lState false);;
  mqttCommunicate.

(** [ledTick] *)
Definition ledTick : M unit :=
  emit (DigitalRead LED_RED);;
  d <- get;;
  digitalWrite LED_RED (negb (pin_LED_RED d)).

(** The progress callback registered with [ArduinoOTA.onProgress]. *)
Definition otaProgress : M unit :=
  emit (DigitalRead LED_RED);;
  d <- get;;
  if Bool.eqb (pin_LED_RED d) HIGH then
    digitalWrite LED_RED LOW;;
    digitalWrite LED_GREEN HIGH
  else
    digitalWrite LED_RED HIGH;;
    digitalWrite LED_GREEN LOW.

(** [wifiManagerSetupStarted], the AP callback. *)
Definition wifiManagerSetupStarted (t : Z) : M unit :=
  emit (TickerAttach 1000);;
  modify (set_ledTicker (Some 1000));;
  modify (set_wifiManagerSetupRunning true);;
  now <- millis AtPortalStart t;;
  modify (set_wifiManagerSetupStart now).

(** [wifiManagerSetupStopped] *)
Definition wifiManagerSetupStopped : M unit :=
  modify (set_restart true).

(** [saveParamsCallback]; [checkbox] is whether the momentary parameter
    reads "true". *)
Definition saveParamsCallback (checkbox : bool) : M unit :=
  modify (set_momentarySwitch checkbox);;
  emit ConfigWrite;;
  wifiManagerSetupStopped.

(** [startWifiManager] *)
Definition startWifiManager (e : Env) (onDemand : bool) : M unit :=
  emit (StartWifiManager onDemand);;
  d <- get;;
  if wifiManagerSetupRunning d then ret tt
  else
    when (negb onDemand)
      (match config_momentary e with
       | Some b => modify (set_momentarySwitch b)
       | None => ret tt
       end);;
    (if onDemand then emit WmStartConfigPortal else emit WmAutoConnect);;
    match ap_started e with
    | Some t => wifiManagerSetupStarted t
    | None => ret tt
    end.

(** [setup] *)
Definition setup (e : Env) : M unit :=
  digitalWrite LED_RED HIGH;;
  digitalWrite LED_GREEN HIGH;;
  emit (DigitalRead SWITCH);;
  modify (set_sState (switch_low e));;
  modify (set_gpioTrigger false);;
  modify (set_manualSetupModeCounter 0);;
  startWifiManager e false.

(** [gpioLoop] *)
Definition gpioLoop (e : Env) : M unit :=
  emit (DigitalRead SWITCH);;
  d <- get;;
  let sChanged := if switch_low e then negb (sState d) else sState d in
  modify (set_sState (switch_low e));;
  when sChanged
    (modify (set_gpioTrigger true);;
     d <- get;;
     if momentarySwitch d then
       if sState d then
         (if lState d then disableL else enableL)
       else mqttCommunicate
     else
       (if lState d then disableL else enableL);;
       mqttCommunicate);;
  when sChanged
    (now <- millis AtGesture (t_gesture e);;
     d <- get;;
     let manualSetupActivatorDelay := wrap32 (now - manualSetupActivatorTime d) in
     (if manualSetupActivatorDelay <? MANUAL_SETUP_MAX_DELAY_MS then
        let counter := wrap_int (manualSetupModeCounter d + 1) in
        modify (set_manualSetupModeCounter counter);;
        when (counter =? MANUAL_SETUP_COUNTER) (startWifiManager e true)
      else modify (set_manualSetupModeCounter 0));;
     now <- millis AtGestureStamp (t_gesture_stamp e);;
     modify (set_manualSetupActivatorTime now)).

(** [wifimanagerLoop] *)
Definition wifimanagerLoop (e : Env) : M unit :=
  emit WmProcess;;
  match params_saved e with
  | Some checkbox => saveParamsCallback checkbox
  | None => ret tt
  end;;
  d <- get;;
  (if wifiManagerSetupRunning d then
     now <- millis AtPortalTimeout (t_portal e);;
     when (CONFIG_TIMEOUT_MS <? wrap32 (now - wifiManagerSetupStart d))
       (emit WmStopConfigPortal;;
        wifiManagerSetupStopped)
   else
     if offline d then digitalWrite LED_RED LOW
     else digitalWrite LED_RED HIGH);;
  emit WiFiStatus;;
  (if wifi_connected e then
     d <- get;;
     when (offline d) (emit MdnsSearch;; emit MqttSetServer);;
     modify (set_offline false)
   else modify (set_offline true));;
  d <- get;;
  when (negb (offline d)) (emit MdnsLoop).

(** [mqttReconnect] *)
Definition mqttReconnect (e : Env) : M bool :=
  d <- get;;
  if negb (mqtt_connected d) then
    now <- millis AtReconnect (t_reconnect e);;
    if mqttConnectDelay d <? wrap32 (now - mqttConnectAttempt d) then
      modify (set_mqttConnectDelay (wrap32 (mqttConnectDelay d + 1000)));;
      d <- get;;
      when (60000 <? mqttConnectDelay d) (modify (set_mqttConnectDelay 60000));;
      now <- millis AtAttempt (t_attempt e);;
      modify (set_mqttConnectAttempt now);;
      emit MqttConnect;;
      if connect_ok e then
        modify (set_mqtt_connected true);;
        emit MqttSubscribe;;
        modify (set_mqttConnectDelay 0);;
        ret true
      else ret false
    else ret false
  else ret false.

(** [mqttCallback]; the payload is the [length] bytes the broker sent. *)
Definition mqttCallback (e : Env) (payload : string) : M unit :=
  let _length := Nat.min (String.length payload) 9 in
  let payloadCopy := strncpy payload _length in
  let cmd := c_str payloadCopy in
  when (startsWith cmd CMD_SETUP) (startWifiManager e true);;
  when (startsWith cmd CMD_RESET) (modify (set_restart true));;
  when (startsWith cmd CMD_OTA)
    (now <- millis AtOtaCommand (t_command e);;
     modify (set_otaStart now);;
     modify (set_otaRunning true);;
     emit (TickerAttach 300);;
     modify (set_ledTicker (Some 300));;
     emit OtaBegin);;
  when (startsWith cmd CMD_ON) enableL;;
  when (startsWith cmd CMD_OFF) disableL.

(** [mqttClient.loop()]: hands the payloads that arrived to the callback. *)
Fixpoint deliver (e : Env) (payloads : list string) : M unit :=
  match payloads with
  | [] => ret tt
  | p :: ps => mqttCallback e p;; deliver e ps
  end.

Definition mqttClient_loop (e : Env) : M unit :=
  emit MqttLoop;;
  deliver e (inbound e).

(** [mqttLoop] *)
Definition mqttLoop (e : Env) : M unit :=
  d <- get;;
  if negb (mqtt_connected d) then
    ok <- mqttReconnect e;;
    if negb ok then ret tt else mqttClient_loop e
  else mqttClient_loop e.

(** [loop], its two branches and its closing test of [restart] first. *)
Definition loop_update (e : Env) : M unit :=
  emit OtaHandle;;
  repeat_m (ota_progress e) otaProgress;;
  now <- millis AtOtaTimeout (t_ota e);;
  d <- get;;
  when (OTA_TIMEOUT_MS <? wrap32 (now - otaStart d)) (modify (set_restart true)).

Definition loop_normal (e : Env) : M unit :=
  gpioLoop e;;
  wifimanagerLoop e;;
  d <- get;;
  when (negb (offline d)) (mqttLoop e);;
  emit (Delay LOOP_DELAY_MS).

Definition loop_restart : M unit :=
  emit RestartCheck;;
  d <- get;;
  when (restart d) (emit EspRestart;; modify (set_rebooted true)).

Definition loop (e : Env) : M unit :=
  d <- get;;
  (if otaRunning d then loop_update e else loop_normal e);;
  loop_restart.

(** ** Runs

    Between two passes of [loop()] the broker connection may drop and the
    Ticker may run [ledTick] when it is attached. A run ends with the
    pass that executes [ESP.restart()]. *)

Definition between (e : Env) : M unit :=
  when (link_lost e) (modify (set_mqtt_connected false));;
  d <- get;;
  match ledTicker d with
  | Some _ => repeat_m (led_ticks e) ledTick
  | None => ret tt
  end.

Definition pass (e : Env) : M unit := between e;; loop e.

Fixpoint run (es : list Env) : M unit :=
  match es with
  | [] => ret tt
  | e :: es' =>
      pass e;;
      d <- get;;
      if rebooted d then ret tt else run es'
  end.

(** ** Observations on traces and states *)

(** The publish requests of a trace: [(lState, gpioTrigger)] at each entry
    of [mqttCommunicate]. *)
Fixpoint requests (t : list Event) : list (bool * bool) :=
  match t with
  | [] => []
  | PublishRequest on flagged :: t' => (on, flagged) :: requests t'
  | _ :: t' => requests t'
  end.

(** The payloads handed to [mqttClient.publish]. *)
Fixpoint publishes (t : list Event) : list string :=
  match t with
  | [] => []
  | MqttPublish payload :: t' => payload :: publishes t'
  | _ :: t' => publishes t'
  end.

(** The levels written to the relay pin. *)
Fixpoint relay_writes (t : list Event) : list bool :=
  match t with
  | [] => []
  | DigitalWrite RELAY level :: t' => level :: relay_writes t'
  | _ :: t' => relay_writes t'
  end.

(** The number of calls [startWifiManager(true)]. *)
Fixpoint portal_requests (t : list Event) : nat :=
  match t with
  | [] => O
  | StartWifiManager true :: t' => S (portal_requests t')
  | _ :: t' => portal_requests t'
  end.

(** The guard of [mqttCommunicate]. *)
Definition online (d : Device) : bool := negb (offline d) && mqtt_connected d.

(** An environment in which nothing happens but the switch level and the
    clock, for concrete runs. *)
Definition tick (sw : bool) (t : Z) : Env :=
  mkEnv sw t t None None None t false t t false [] t O t false O.

(** The same with WiFi up and the broker accepting connections. *)
Definition tick_online (sw : bool) (t : Z) (msgs : list string) : Env :=
  mkEnv sw t t None None None t true t t true msgs t O t false O.

(** The state in which [gpioLoop] calls [enableL] on a press while the
    device is still offline. *)
Definition pressed_offline : Device := set_gpioTrigger true boot.


(** The device after [setup()] and one pass of [loop()] with WiFi up and
    the broker reachable: online, connected, relay off. *)
Definition online_idle : Device :=
  exec (setup (tick false 0);; loop (tick_online false 10 [])) boot.

(** ** Gesture runs

    A run of the gesture detector is a sequence of passes of [gpioLoop].
    The delay the detector measures at a transition is the 32-bit
    difference between the counter read at the transition and the
    timestamp recorded at the previous one. *)

Definition gap (previous : Z) (e : Env) : Z :=
  wrap32 (wrap32 (t_gesture e) - previous).

Definition stamp (e : Env) : Z := wrap32 (t_gesture_stamp e).

Fixpoint gaps (previous : Z) (es : list Env) : list Z :=
  match es with
  | [] => []
  | e :: es' => gap previous e :: gaps (stamp e) es'
  end.

(** Every pass sees the switch at the other level than the pass before. *)
Fixpoint alternating (level : bool) (es : list Env) : Prop :=
  match es with
  | [] => True
  | e :: es' => switch_low e = negb level /\ alternating (negb level) es'
  end.

(** The number of calls [startWifiManager(true)] in each pass. *)
Fixpoint fires (es : list Env) (d : Device) : list nat :=
  match es with
  | [] => []
  | e :: es' =>
      portal_requests (trace (gpioLoop e) d) :: fires es' (exec (gpioLoop e) d)
  end.

(** The counting rule of [gpioLoop] on its own: the new counter and
    whether [startWifiManager(true)] is called. *)
Definition gesture (delay counter : Z) : bool * Z :=
  if delay <? MANUAL_SETUP_MAX_DELAY_MS then
    (wrap_int (counter + 1) =? MANUAL_SETUP_COUNTER, wrap_int (counter + 1))
  else (false, 0).

(** The calls a run of transitions makes according to the counting rule,
    from the last timestamp and the counter. *)
Fixpoint gesture_fires (previous counter : Z) (es : list Env) : list nat :=
  match es with
  | [] => []
  | e :: es' =>
      let g := gesture (gap previous e) counter in
      (if fst g then 1%nat else 0%nat) :: gesture_fires (stamp e) (snd g) es'
  end.

(** The device as [setup()] leaves it when no portal comes up. *)
Definition after_setup : Device := exec (setup (tick false 0)) boot.

(** ** Command dispatcher *)

Inductive Command : Type :=
| EnterProvisioning | Reset | EnterUpdate | TurnOn | TurnOff.

Definition keyword (c : Command) : string :=
  match c with
  | EnterProvisioning => CMD_SETUP
  | Reset => CMD_RESET
  | EnterUpdate => CMD_OTA
  | TurnOn => CMD_ON
  | TurnOff => CMD_OFF
  end.

(** The order in which [mqttCallback] tests the keywords. *)
Definition command_order : list Command :=
  [EnterProvisioning; Reset; EnterUpdate; TurnOn; TurnOff].

(** The body [mqttCallback] guards with the test for a keyword. *)
Definition perform (e : Env) (c : Command) : M unit :=
  match c with
  | EnterProvisioning => startWifiManager e true
  | Reset => modify (set_restart true)
  | EnterUpdate =>
      now <- millis AtOtaCommand (t_command e);;
      modify (set_otaStart now);;
      modify (set_otaRunning true);;
      emit (TickerAttach 300);;
      modify (set_ledTicker (Some 300));;
      emit OtaBegin
  | TurnOn => enableL
  | TurnOff => disableL
  end.

Fixpoint perform_all (e : Env) (cs : list Command) : M unit :=
  match cs with
  | [] => ret tt
  | c :: cs' => perform e c;; perform_all e cs'
  end.

(** The text [mqttCallback] matches: at most 9 bytes of the payload, up
    to its first NUL. *)
Definition cmd_of (payload : string) : string :=
  c_str (strncpy payload (Nat.min (String.length payload) 9)).

(** Every command whose test passes, in the order of the tests: what the
    five independent [if]s of [mqttCallback] execute. *)
Definition matched (cmd : string) : list Command :=
  filter (fun c => startsWith cmd (keyword c)) command_order.

(** The classification of the specification: the first keyword, in the
    fixed order, that is a prefix of the text. *)
Definition classify (cmd : string) : option Command :=
  find (fun c => startsWith cmd (keyword c)) command_order.

(** ** Reconnect runs *)

(** The number of calls [mqttClient.connect]. *)
Fixpoint connects (t : list Event) : nat :=
  match t with
  | [] => O
  | MqttConnect :: t' => S (connects t')
  | _ :: t' => connects t'
  end.

(** Successive calls of [mqttReconnect]. *)
Fixpoint reconnects (es : list Env) : M unit :=
  match es with
  | [] => ret tt
  | e :: es' => _ <- mqttReconnect e;; reconnects es'
  end.

(** The time since the last attempt as [mqttReconnect] measures it. *)
Definition since_attempt (d : Device) (e : Env) : Z :=
  wrap32 (wrap32 (t_reconnect e) - mqttConnectAttempt d).

(** ** Specifications of computations *)

(** [m] keeps the property [P] of the device. *)
Definition preserves {A : Type} (P : Device -> Prop) (m : M A) : Prop :=
  forall d : Device, P d -> P (exec m d).

(** Every event [m] emits satisfies [q]. *)
Definition emits {A : Type} (q : Event -> bool) (m : M A) : Prop :=
  forall d : Device, forallb q (trace m d) = true.

(** ** The relay and its indicator *)

(** The relay output follows [lState]. *)
Definition relay_follows (d : Device) : Prop := pin_RELAY d = lState d.

(** The green LED (lit when its pin is low) follows [lState]. *)
Definition green_follows (d : Device) : Prop := pin_LED_GREEN d = negb (lState d).

(** A property that looks at nothing but the relay pin, the green LED pin
    and [lState]. *)
Definition relay_property (P : Device -> Prop) : Prop :=
  forall d d' : Device,
    pin_RELAY d = pin_RELAY d' ->
    pin_LED_GREEN d = pin_LED_GREEN d' ->
    lState d = lState d' ->
    P d -> P d'.

(** [m] writes neither the relay pin nor [lState]. *)
Definition keeps_relay {A : Type} (m : M A) : Prop :=
  forall d : Device,
    pin_RELAY (exec m d) = pin_RELAY d /\ lState (exec m d) = lState d.

(** A pass of [loop()] in update mode during which [ArduinoOTA.handle()]
    reports progress [n] times. *)
Definition tick_progress (t : Z) (n : nat) : Env :=
  mkEnv false t t None None None t true t t true [] t n t false O.

(** The device after the commands "1" and "ota": relay on, update mode. *)
Definition updating_on : Device :=
  exec (loop (tick_online false 20 ["1"]);; loop (tick_online false 30 ["ota"]))
    online_idle.

(** ** Phases of a pass of [loop()]

    The events by which the four kinds of work of a pass show in its
    trace: sampling the switch and timing its transitions; the timeout
    tests of provisioning and update mode and the portal stop they cause;
    servicing the network (WiFi status, mDNS, the broker session); and the
    test of [restart] with the restart it leads to. Events that several
    kinds of work share (publishing, starting the portal) have no phase. *)

Inductive Phase : Type := SwitchInput | ModeTimeout | Connectivity | PendingRestart.

Definition phase (ev : Event) : option Phase :=
  match ev with
  | DigitalRead SWITCH => Some SwitchInput
  | Millis AtGesture | Millis AtGestureStamp => Some SwitchInput
  | Millis AtPortalTimeout | Millis AtOtaTimeout | WmStopConfigPortal => Some ModeTimeout
  | WiFiStatus | MdnsSearch | MdnsLoop => Some Connectivity
  | Millis AtReconnect | Millis AtAttempt => Some Connectivity
  | MqttSetServer | MqttConnect | MqttSubscribe | MqttLoop => Some Connectivity
  | RestartCheck | EspRestart => Some PendingRestart
  | _ => None
  end.

(** The order of the phases in the sketch. *)
Definition code_rank (p : Phase) : nat :=
  match p with
  | SwitchInput => 0
  | ModeTimeout => 1
  | Connectivity => 2
  | PendingRestart => 3
  end.

(** The order the specification gives: connectivity before the timeouts. *)
Definition spec_rank (p : Phase) : nat :=
  match p with
  | SwitchInput => 0
  | Connectivity => 1
  | ModeTimeout => 2
  | PendingRestart => 3
  end.

Fixpoint ranks (rank : Phase -> nat) (t : list Event) : list nat :=
  match t with
  | [] => []
  | ev :: t' =>
      match phase ev with
      | Some p => rank p :: ranks rank t'
      | None => ranks rank t'
      end
  end.

Fixpoint nondecreasing (l : list nat) : bool :=
  match l with
  | [] => true
  | x :: l' =>
      match l' with
      | [] => true
      | y :: _ => (x <=? y)%nat && nondecreasing l'
      end
  end.

(** The phases of a trace come in the order [rank]. *)
Definition in_order (rank : Phase -> nat) (t : list Event) : bool :=
  nondecreasing (ranks rank t).

(** A nondecreasing list of ranks between [lo] and [hi]. *)
Definition within (lo hi : nat) (l : list nat) : bool :=
  nondecreasing l && forallb (fun x => (lo <=? x)%nat && (x <=? hi)%nat) l.

(** The events of phase [p] and those without a phase. *)
Definition of_phase (p : Phase) (ev : Event) : bool :=
  match phase ev with
  | Some p' => (code_rank p' =? code_rank p)%nat
  | None => true
  end.

Definition is_restart_event (ev : Event) : bool :=
  match ev with
  | RestartCheck | EspRestart => true
  | _ => false
  end.

(** A pass during which the broker delivers "set" and the portal comes up. *)
Definition tick_set (t : Z) : Env :=
  mkEnv false t t (Some t) None None t true t t true ["set"] t O t false O.

(** The device in provisioning mode, still online and connected. *)
Definition provisioning_online : Device := exec (loop (tick_set 20)) online_idle.

(** ** Provisioning and update mode *)

(** The device is in update mode ([ota]) or in provisioning mode, entered
    when the millisecond counter showed the time [T]. *)
Definition in_mode (ota : bool) (T : Z) (d : Device) : Prop :=
  otaRunning d = ota /\
  if ota then otaStart d = wrap32 T
  else wifiManagerSetupRunning d = true /\ wifiManagerSetupStart d = wrap32 T.

(** The time at which a pass tests the timeout of the mode. *)
Definition mode_clock (ota : bool) (e : Env) : Z :=
  if ota then t_ota e else t_portal e.

(** A pass without input: the switch rests at [level], the broker
    delivers nothing and no configuration is saved. *)
Definition quiet (level : bool) (e : Env) : Prop :=
  switch_low e = level /\ inbound e = [] /\ params_saved e = None.

(** The mode is held: entered at [T], no restart pending or executed. *)
Definition holding (ota : bool) (T : Z) (level : bool) (d : Device) : Prop :=
  in_mode ota T d /\ restart d = false /\ rebooted d = false /\ sState d = level.

Definition is_EspRestart (ev : Event) : bool :=
  match ev with
  | EspRestart => true
  | _ => false
  end.

(** [ESP.restart()] occurs in the trace. *)
Definition restarted (t : list Event) : bool := existsb is_EspRestart t.

(** Provisioning entered 1000 ms before the counter wraps around. *)
Definition provisioning_before_wrap : Device :=
  exec (wifiManagerSetupStarted (2 ^ 32 - 1000)) after_setup.

(** The counter value a pass reads when it tests the provisioning timeout. *)
Definition millis_of (e : Env) : Z := wrap32 (t_portal e).

(** The reads and writes of the two indicator LEDs. *)
Definition is_led_event (ev : Event) : bool :=
  match ev with
  | DigitalRead LED_RED => true
  | DigitalWrite LED_RED _ | DigitalWrite LED_GREEN _ => true
  | _ => false
  end.

(** ** State and trace together *)

(** From a device with [P], the computation [m] leaves a device with [P]
    and emits only events that satisfy [q]. *)
Definition maintains {A : Type} (P : Device -> Prop) (q : Event -> bool)
    (m : M A) : Prop :=
  forall d : Device, P d -> P (exec m d) /\ forallb q (trace m d) = true.

Definition any_event (ev : Event) : bool := true.

(** Successive passes of [gpioLoop]. *)
Fixpoint gpio_passes (es : list Env) : M unit :=
  match es with
  | [] => ret tt
  | e :: es' => gpioLoop e;; gpio_passes es'
  end.

(** The device on which the command "rst" has just been performed. *)
Definition reset_requested : Device :=
  exec (mqttCallback (tick false 30) "rst") online_idle.

(** The calls by which a configuration portal comes up. *)
Definition is_portal_start (ev : Event) : bool :=
  match ev with
  | WmStartConfigPortal | WmAutoConnect | Millis AtPortalStart => true
  | _ => false
  end.

(** The device with the fields a pass in update mode may write blanked:
    the two LED pins, the broker connection, [restart] and the executed
    restart. *)
Definition update_view (d : Device) : Device :=
  set_pin_LED_RED LOW
    (set_pin_LED_GREEN LOW
       (set_mqtt_connected false (set_restart false (set_rebooted false d)))).

(** The events of a pass in update mode. *)
Definition update_event (ev : Event) : bool :=
  match ev with
  | OtaHandle | DigitalRead LED_RED | Millis AtOtaTimeout => true
  | DigitalWrite LED_RED _ | DigitalWrite LED_GREEN _ => true
  | RestartCheck | EspRestart => true
  | _ => false
  end.

(** A pass during which the portal page is saved with the momentary box
    ticked, with WiFi up and one command arriving. *)
Definition tick_saved (t : Z) : Env :=
  mkEnv false t t None None (Some true) t true t t true ["1"] t O t false O.

(** [mqttConnectDelay] is a whole number of seconds up to a minute. *)
Definition backoff_bounded (d : Device) : Prop :=
  exists k : Z, 0 <= k <= 60 /\ mqttConnectDelay d = 1000 * k.

(** A payload that is empty or starts with a byte no keyword starts with. *)
Definition unknown_start (payload : string) : bool :=
  match payload with
  | EmptyString => true
  | String c _ => negb (existsb (Ascii.eqb c) ["s"; "r"; "o"; "1"; "0"]%char)
  end.

(** The payloads of the state channel. *)
Definition state_payload (ev : Event) : bool :=
  match ev with
  | MqttPublish payload => existsb (String.eqb payload) ["0"; "1"; "0."; "1."]
  | _ => true
  end.

(** The calls that service the network: mDNS and the broker session. *)
Definition is_network_service (ev : Event) : bool :=
  match ev with
  | MdnsSearch | MdnsLoop | MqttSetServer => true
  | Millis AtReconnect | Millis AtAttempt => true
  | MqttConnect | MqttSubscribe | MqttLoop => true
  | _ => false
  end.

Definition is_MqttConnect (ev : Event) : bool :=
  match ev with
  | MqttConnect => true
  | _ => false
  end.

(** A pass with WiFi up and the broker refusing the connection. *)
Definition tick_refused (t : Z) : Env :=
  mkEnv false t t None None None t true t t false [] t O t false O.

(** A pass in which the switch moves and a command arrives, long after
    provisioning mode was entered. *)
Definition tick_busy (t : Z) : Env :=
  mkEnv true t t None None None t true t t true ["1"; "0"] t O t false O.
(** ** Symbolic execution *)

Arguments wrap32 : simpl never.
Arguments wrap_int : simpl never.

Ltac dozy_unfold := cbv beta iota zeta delta
  [exec trace bind ret get modify emit when val st out millis digitalWrite
   mqttCommunicate enableL disableL ledTick otaProgress wifiManagerSetupStarted
   wifiManagerSetupStopped saveParamsCallback startWifiManager setup gpioLoop
   wifimanagerLoop mqttReconnect mqttLoop mqttClient_loop loop online
   loop_update loop_normal loop_restart deliver repeat_m
   set_offline set_wifiManagerSetupRunning set_wifiManagerSetupStart set_otaRunning
   set_otaStart set_restart set_mqttConnectAttempt set_mqttConnectDelay
   set_momentarySwitch set_sState set_lState set_gpioTrigger
   set_manualSetupActivatorTime set_manualSetupModeCounter set_pin_RELAY
   set_pin_LED_GREEN set_pin_LED_RED set_mqtt_connected set_ledTicker set_rebooted
   offline wifiManagerSetupRunning wifiManagerSetupStart otaRunning otaStart restart
   mqttConnectAttempt mqttConnectDelay momentarySwitch sState lState gpioTrigger
   manualSetupActivatorTime manualSetupModeCounter pin_RELAY pin_LED_GREEN pin_LED_RED
   mqtt_connected ledTicker rebooted
   switch_low t_gesture t_gesture_stamp ap_started config_momentary params_saved
   t_portal wifi_connected t_reconnect t_attempt connect_ok inbound t_command
   ota_progress t_ota link_lost led_ticks
   requests publishes relay_writes portal_requests
   negb andb orb Bool.eqb app String.append HIGH LOW
   CONFIG_TIMEOUT_MS OTA_TIMEOUT_MS LOOP_DELAY_MS MANUAL_SETUP_MAX_DELAY_MS
   MANUAL_SETUP_COUNTER fst snd] in *.

(** Case analysis on the first undecided test of the goal. *)
Ltac split_test :=
  match goal with
  | |- context [match ?c with _ => _ end] =>
      match c with
      | context [match _ with _ => _ end] => fail 1
      | _ => destruct c eqn:?
      end
  end.

Ltac dozy_run := dozy_unfold; repeat (split_test; dozy_unfold).

(** ** Laws of sequencing *)

Lemma exec_bind {A B : Type} (m : M A) (k : A -> M B) (d : Device) :
  exec (bind m k) d = exec (k (val (m d))) (exec m d).
Proof. unfold exec, bind. destruct (m d) as [a d1 t1]. cbn. destruct (k a d1). reflexivity. Qed.

Lemma trace_bind {A B : Type} (m : M A) (k : A -> M B) (d : Device) :
  trace (bind m k) d = trace m d ++ trace (k (val (m d))) (exec m d).
Proof. unfold trace, exec, bind. destruct (m d) as [a d1 t1]. cbn. destruct (k a d1). reflexivity. Qed.

Lemma bind_ret_tt (m : M unit) (d : Device) : (m;; ret tt) d = m d.
Proof.
  unfold bind, ret. destruct (m d) as [[] d' t]. rewrite app_nil_r. reflexivity.
Qed.

Lemma ret_bind {A B : Type} (a : A) (k : A -> M B) (d : Device) :
  (x <- ret a;; k x) d = k a d.
Proof. unfold bind, ret. destruct (k a d). reflexivity. Qed.

Lemma bind_ext {A B : Type} (m : M A) (k k' : A -> M B) (d : Device) :
  (forall a d', k a d' = k' a d') -> bind m k d = bind m k' d.
Proof. intros H. unfold bind. destruct (m d) as [a d1 t1]. rewrite H. reflexivity. Qed.

(** ** Relay/State model *)

(** C3. [enableL] and [disableL] set the relay state and request
    a publish of the new state with the current [gpioTrigger]; the flag is
    cleared exactly when the device is online with the MQTT client connected,
    and is left as it was when the publish is dropped. *)
Theorem relay_op_clears_flag_when_published :
  forall d : Device,
    lState (exec enableL d) = true /\
    lState (exec disableL d) = false /\
    requests (trace enableL d) = [(true, gpioTrigger d)] /\
    requests (trace disableL d) = [(false, gpioTrigger d)] /\
    gpioTrigger (exec enableL d) = (if online d then false else gpioTrigger d) /\
    gpioTrigger (exec disableL d) = (if online d then false else gpioTrigger d) /\
    publishes (trace enableL d) =
      (if online d then [if gpioTrigger d then "1." else "1"] else []) /\
    publishes (trace disableL d) =
      (if online d then [if gpioTrigger d then "0." else "0"] else []).
Proof.
  intros d; destruct d as [off ? ? ? ? ? ? ? ? ? ? flag ? ? ? ? ? conn ? ?].
  dozy_unfold.
  destruct off, conn, flag; repeat split; reflexivity.
Qed.

(** Against the wording of C3 in the specification: offline, the flag
    survives both operations. *)
Lemma relay_op_keeps_flag_offline :
  offline pressed_offline = true /\
  gpioTrigger pressed_offline = true /\
  gpioTrigger (exec enableL pressed_offline) = true /\
  gpioTrigger (exec disableL pressed_offline) = true /\
  publishes (trace enableL pressed_offline) = [].
Proof. vm_compute. repeat split; reflexivity. Qed.

(** ** Switch-to-relay policy *)

(** What a pass of [gpioLoop] that sees a transition does to the relay and
    to the broker: in momentary mode only a press toggles, otherwise every
    transition does; the first request of the pass is flagged, and a
    second, made only in non-momentary mode, is plain when the first was
    published. *)
Lemma gpioLoop_policy (e : Env) (d : Device) :
  switch_low e = negb (sState d) ->
  let d' := exec (gpioLoop e) d in
  let t := trace (gpioLoop e) d in
  let toggles := negb (momentarySwitch d) || switch_low e in
  let on := if toggles then negb (lState d) else lState d in
  lState d' = on /\
  pin_RELAY d' = (if toggles then on else pin_RELAY d) /\
  relay_writes t = (if toggles then [on] else []) /\
  requests t =
    (if momentarySwitch d then [(on, true)]
     else [(on, true); (on, negb (online d))]) /\
  publishes t =
    (if online d then
       if momentarySwitch d then [if on then "1." else "0."]
       else [if on then "1." else "0."; if on then "1" else "0"]
     else []) /\
  sState d' = switch_low e /\
  momentarySwitch d' = momentarySwitch d /\
  online d' = online d.
Proof.
  intros Hsw.
  destruct d as [off run ? ? ? ? ? ? mom s l flag tm cnt ? ? ? conn ? ?].
  destruct e as [sw ? ? ap ? ? ? ? ? ? ? ? ? ? ? ? ?].
  dozy_unfold; subst sw.
  destruct s, mom, l, off, conn; dozy_run; repeat split; reflexivity.
Qed.

(** C7. Momentary mode, relay off: the press turns the relay on with one
    publish request, flagged; the release that follows leaves the relay
    alone and issues one publish request, flagged, reporting the relay on.
    Online with the broker connected each request is the publish "1."; in
    every other case the request is dropped. *)
Theorem momentary_press_then_release :
  forall (press release : Env) (d : Device),
    momentarySwitch d = true ->
    lState d = false ->
    sState d = false ->
    switch_low press = true ->
    switch_low release = false ->
    let d1 := exec (gpioLoop press) d in
    let d2 := exec (gpioLoop release) d1 in
    let t1 := trace (gpioLoop press) d in
    let t2 := trace (gpioLoop release) d1 in
    lState d1 = true /\ pin_RELAY d1 = HIGH /\
    relay_writes t1 = [HIGH] /\
    requests t1 = [(true, true)] /\
    publishes t1 = (if online d then ["1."] else []) /\
    lState d2 = true /\ pin_RELAY d2 = HIGH /\
    relay_writes t2 = [] /\
    requests t2 = [(true, true)] /\
    publishes t2 = (if online d then ["1."] else []).
Proof.
  intros press release d Hm Hl Hs Hp Hr d1 d2 t1 t2.
  assert (H1 : switch_low press = negb (sState d)) by (rewrite Hs, Hp; reflexivity).
  apply gpioLoop_policy in H1. cbv zeta in H1. fold d1 t1 in H1.
  rewrite Hm, Hl, Hp in H1. cbn [negb orb] in H1.
  destruct H1 as (L1 & R1 & W1 & Q1 & P1 & S1 & M1 & O1).
  assert (H2 : switch_low release = negb (sState d1)) by (rewrite S1, Hr; reflexivity).
  apply gpioLoop_policy in H2. cbv zeta in H2. fold d2 t2 in H2.
  rewrite M1, L1, Hr, O1, R1 in H2. cbn [negb orb] in H2.
  destruct H2 as (L2 & R2 & W2 & Q2 & P2 & _).
  unfold HIGH. repeat split; assumption.
Qed.

Lemma momentary_press_then_release_witness :
  let d := set_momentarySwitch true boot in
  let d1 := exec (gpioLoop (tick true 1000)) d in
  lState d1 = true /\
  lState (exec (gpioLoop (tick false 2000)) d1) = true /\
  requests (trace (gpioLoop (tick false 2000)) d1) = [(true, true)].
Proof.
  pose proof (momentary_press_then_release (tick true 1000) (tick false 2000)
                (set_momentarySwitch true boot)
                eq_refl eq_refl eq_refl eq_refl eq_refl) as H.
  cbv zeta in H. cbv zeta.
  destruct H as (H1 & _ & _ & _ & _ & H2 & _ & _ & H3 & _).
  repeat split; assumption.
Defined.

(** C2. Non-momentary mode, relay off: press and release each
    toggle the relay, so the pair switches it on and then off again and
    ends with the relay off. Each transition makes two publish requests;
    online with the broker connected they are a flagged publish followed
    by a plain one, four publishes in all. *)
Theorem toggle_press_then_release :
  forall (press release : Env) (d : Device),
    momentarySwitch d = false ->
    lState d = false ->
    sState d = false ->
    switch_low press = true ->
    switch_low release = false ->
    let d1 := exec (gpioLoop press) d in
    let d2 := exec (gpioLoop release) d1 in
    let t1 := trace (gpioLoop press) d in
    let t2 := trace (gpioLoop release) d1 in
    relay_writes t1 = [HIGH] /\ lState d1 = true /\
    relay_writes t2 = [LOW] /\ lState d2 = false /\
    requests t1 = [(true, true); (true, negb (online d))] /\
    requests t2 = [(false, true); (false, negb (online d))] /\
    publishes t1 ++ publishes t2 =
      (if online d then ["1."; "1"; "0."; "0"] else []).
Proof.
  intros press release d Hm Hl Hs Hp Hr d1 d2 t1 t2.
  assert (H1 : switch_low press = negb (sState d)) by (rewrite Hs, Hp; reflexivity).
  apply gpioLoop_policy in H1. cbv zeta in H1. fold d1 t1 in H1.
  rewrite Hm, Hl, Hp in H1. cbn [negb orb] in H1.
  destruct H1 as (L1 & R1 & W1 & Q1 & P1 & S1 & M1 & O1).
  assert (H2 : switch_low release = negb (sState d1)) by (rewrite S1, Hr; reflexivity).
  apply gpioLoop_policy in H2. cbv zeta in H2. fold d2 t2 in H2.
  rewrite M1, L1, Hr, O1 in H2. cbn [negb orb] in H2.
  destruct H2 as (L2 & R2 & W2 & Q2 & P2 & _).
  rewrite P1, P2. unfold HIGH, LOW.
  repeat split; try assumption.
  destruct (online d); reflexivity.
Qed.

Lemma toggle_press_then_release_witness :
  let d1 := exec (gpioLoop (tick_online true 1000 [])) online_idle in
  lState d1 = true /\
  lState (exec (gpioLoop (tick_online false 2000 [])) d1) = false /\
  publishes (trace (gpioLoop (tick_online true 1000 [])) online_idle) ++
  publishes (trace (gpioLoop (tick_online false 2000 [])) d1) =
    ["1."; "1"; "0."; "0"].
Proof.
  pose proof (toggle_press_then_release (tick_online true 1000 [])
                (tick_online false 2000 []) online_idle
                eq_refl eq_refl eq_refl eq_refl eq_refl) as H.
  cbv zeta in H. cbv zeta.
  destruct H as (_ & H1 & _ & H2 & _ & _ & H3).
  repeat split; assumption.
Defined.

(** Against the wording of C2 in the specification: the pair of toggles
    ends with the relay off. *)
Lemma toggle_pair_ends_off :
  let d1 := exec (gpioLoop (tick_online true 1000 [])) online_idle in
  let d2 := exec (gpioLoop (tick_online false 2000 [])) d1 in
  momentarySwitch online_idle = false /\
  lState online_idle = false /\
  relay_writes (trace (gpioLoop (tick_online true 1000 [])) online_idle) = [HIGH] /\
  relay_writes (trace (gpioLoop (tick_online false 2000 [])) d1) = [LOW] /\
  lState d2 = false /\ lState d2 <> true.
Proof. vm_compute. repeat split; try reflexivity. discriminate. Qed.

(** ** Gesture detector *)

(** What a pass of [gpioLoop] that sees a transition does to the detector. *)
Lemma gpioLoop_transition (e : Env) (d : Device) :
  switch_low e = negb (sState d) ->
  let g := gesture (gap (manualSetupActivatorTime d) e) (manualSetupModeCounter d) in
  let d' := exec (gpioLoop e) d in
  sState d' = switch_low e /\
  manualSetupActivatorTime d' = stamp e /\
  manualSetupModeCounter d' = snd g /\
  portal_requests (trace (gpioLoop e) d) = (if fst g then 1%nat else 0%nat).
Proof.
  intros Hsw.
  destruct d as [off run ? ? ? ? ? ? mom s l flag tm cnt ? ? ? conn ? ?].
  destruct e as [sw ? ? ap ? ? ? ? ? ? ? ? ? ? ? ? ?].
  unfold gesture, gap, stamp, MANUAL_SETUP_MAX_DELAY_MS, MANUAL_SETUP_COUNTER.
  dozy_unfold; subst sw.
  destruct s, mom, l, off, conn; dozy_run; repeat split; reflexivity.
Qed.

(** A pass that sees no transition leaves the detector alone. *)
Lemma gpioLoop_steady (e : Env) (d : Device) :
  switch_low e = sState d ->
  exec (gpioLoop e) d = d /\ trace (gpioLoop e) d = [DigitalRead SWITCH].
Proof.
  intros Hsw.
  destruct d as [off run ? ? ? ? ? ? mom s l flag tm cnt ? ? ? conn ? ?].
  destruct e as [sw ? ? ap ? ? ? ? ? ? ? ? ? ? ? ? ?].
  dozy_unfold; subst sw.
  destruct s; dozy_unfold; split; reflexivity.
Qed.

Lemma fires_gesture (es : list Env) :
  forall d : Device,
    alternating (sState d) es ->
    fires es d =
    gesture_fires (manualSetupActivatorTime d) (manualSetupModeCounter d) es.
Proof.
  induction es as [| e es IH]; intros d Halt; [reflexivity |].
  destruct Halt as [Hsw Halt].
  destruct (gpioLoop_transition e d Hsw) as (Hs & Ht & Hc & Hf).
  cbn [fires gesture_fires].
  rewrite Hf, IH, Ht, Hc; [reflexivity |].
  rewrite Hs, Hsw. exact Halt.
Qed.

Lemma gesture_in (delay c c' : Z) (b : bool) :
  delay < 500 -> - 2 ^ 31 <= c' < 2 ^ 31 -> c' = c + 1 -> b = (c' =? 5) ->
  gesture delay c = (b, c').
Proof.
  intros Hd Hr -> ->. unfold gesture, MANUAL_SETUP_MAX_DELAY_MS, MANUAL_SETUP_COUNTER.
  apply Z.ltb_lt in Hd. rewrite Hd.
  assert (Hw : wrap_int (c + 1) = c + 1).
  { unfold wrap_int. rewrite Z.mod_small by lia. lia. }
  rewrite Hw. reflexivity.
Qed.

Lemma gesture_out (delay c : Z) :
  500 <= delay -> gesture delay c = (false, 0).
Proof.
  intros Hd. unfold gesture, MANUAL_SETUP_MAX_DELAY_MS.
  apply Z.ltb_ge in Hd. rewrite Hd. reflexivity.
Qed.

(** One step of the counting rule at a known counter. *)
Ltac gesture_step :=
  match goal with
  | |- context [gesture ?g ?c] =>
      first
        [ let c' := eval vm_compute in (c + 1) in
          let b := eval vm_compute in (c' =? 5) in
          rewrite (gesture_in g c c' b) by (first [lia | reflexivity])
        | rewrite (gesture_out g c) by lia ];
      cbn [fst snd gesture_fires]
  end.

(** C1. The counting rule of the detector: a transition whose
    measured delay is below 500 ms increments the counter and calls
    [startWifiManager(true)] when the counter becomes 5; any other
    transition sets the counter to 0; the call does not touch the counter.
    From counter 0, five transitions at most 499 ms apart call it once, on
    the fifth, when the first of them is itself within 500 ms of the
    recorded timestamp; when the first one is out of window the call comes
    with a sixth such transition; and five transitions with one gap of
    500 ms or more between them never call it. *)
Theorem gesture_threshold :
  (forall (e : Env) (d : Device),
     switch_low e = negb (sState d) ->
     let delay := gap (manualSetupActivatorTime d) e in
     manualSetupModeCounter (exec (gpioLoop e) d) =
       (if delay <? 500 then wrap_int (manualSetupModeCounter d + 1) else 0) /\
     portal_requests (trace (gpioLoop e) d) =
       (if (delay <? 500) && (wrap_int (manualSetupModeCounter d + 1) =? 5)
        then 1%nat else 0%nat) /\
     manualSetupActivatorTime (exec (gpioLoop e) d) = stamp e) /\
  (forall (d : Device) (e1 e2 e3 e4 e5 : Env),
     manualSetupModeCounter d = 0 ->
     alternating (sState d) [e1; e2; e3; e4; e5] ->
     Forall (fun g => g <= 499) (gaps (stamp e1) [e2; e3; e4; e5]) ->
     fires [e1; e2; e3; e4; e5] d =
       (if gap (manualSetupActivatorTime d) e1 <? 500
        then [0; 0; 0; 0; 1]%nat else [0; 0; 0; 0; 0]%nat)) /\
  (forall (d : Device) (e0 e1 e2 e3 e4 e5 : Env),
     manualSetupModeCounter d = 0 ->
     alternating (sState d) [e0; e1; e2; e3; e4; e5] ->
     500 <= gap (manualSetupActivatorTime d) e0 ->
     Forall (fun g => g <= 499) (gaps (stamp e0) [e1; e2; e3; e4; e5]) ->
     fires [e0; e1; e2; e3; e4; e5] d = [0; 0; 0; 0; 0; 1]%nat) /\
  (forall (d : Device) (e1 e2 e3 e4 e5 : Env),
     manualSetupModeCounter d = 0 ->
     alternating (sState d) [e1; e2; e3; e4; e5] ->
     Exists (fun g => 500 <= g) (gaps (stamp e1) [e2; e3; e4; e5]) ->
     fires [e1; e2; e3; e4; e5] d = [0; 0; 0; 0; 0]%nat).
Proof.
  split; [| split; [| split]].
  - intros e d Hsw delay.
    destruct (gpioLoop_transition e d Hsw) as (_ & Ht & Hc & Hf).
    rewrite Hc, Hf, Ht. unfold gesture, MANUAL_SETUP_MAX_DELAY_MS, MANUAL_SETUP_COUNTER.
    fold delay. destruct (delay <? 500); repeat split; reflexivity.
  - intros d e1 e2 e3 e4 e5 Hc Halt Hg.
    rewrite fires_gesture by exact Halt. rewrite Hc.
    cbn [gaps] in Hg.
    inversion_clear Hg as [| ? ? G2 Hg']; inversion_clear Hg' as [| ? ? G3 Hg];
      inversion_clear Hg as [| ? ? G4 Hg']; inversion_clear Hg' as [| ? ? G5 _].
    cbn [gesture_fires].
    destruct (gap (manualSetupActivatorTime d) e1 <? 500) eqn:G1;
      [apply Z.ltb_lt in G1 | apply Z.ltb_ge in G1];
      repeat gesture_step; reflexivity.
  - intros d e0 e1 e2 e3 e4 e5 Hc Halt G0 Hg.
    rewrite fires_gesture by exact Halt. rewrite Hc.
    cbn [gaps] in Hg.
    inversion_clear Hg as [| ? ? G1 Hg']; inversion_clear Hg' as [| ? ? G2 Hg];
      inversion_clear Hg as [| ? ? G3 Hg']; inversion_clear Hg' as [| ? ? G4 Hg];
      inversion_clear Hg as [| ? ? G5 _].
    cbn [gesture_fires].
    repeat gesture_step; reflexivity.
  - intros d e1 e2 e3 e4 e5 Hc Halt Hg.
    rewrite fires_gesture by exact Halt. rewrite Hc.
    cbn [gaps] in Hg. cbn [gesture_fires].
    destruct (Z_lt_dec (gap (manualSetupActivatorTime d) e1) 500) as [G1 | G1];
    destruct (Z_lt_dec (gap (stamp e1) e2) 500) as [G2 | G2];
    destruct (Z_lt_dec (gap (stamp e2) e3) 500) as [G3 | G3];
    destruct (Z_lt_dec (gap (stamp e3) e4) 500) as [G4 | G4];
    destruct (Z_lt_dec (gap (stamp e4) e5) 500) as [G5 | G5];
    try (exfalso;
         repeat match goal with
                | H : Exists _ (_ :: _) |- _ => inversion_clear H
                | H : Exists _ [] |- _ => inversion H
                end; lia);
    repeat gesture_step; reflexivity.
Qed.

Lemma gesture_threshold_witness :
  fires [tick true 1000; tick false 1100; tick true 1200; tick false 1300;
         tick true 1400; tick false 1500] after_setup = [0; 0; 0; 0; 0; 1]%nat.
Proof.
  apply (proj1 (proj2 (proj2 gesture_threshold))).
  - reflexivity.
  - cbn. repeat split; reflexivity.
  - apply Z.leb_le. reflexivity.
  - repeat constructor; apply Z.leb_le; reflexivity.
Defined.

(** Against the wording of C1 in the specification: after [setup()] five
    transitions 100 ms apart do
    not call [startWifiManager(true)], because the first of them finds the
    recorded timestamp more than 500 ms old and leaves the counter at 0,
    not 1; and the counter is still 5 after the call. *)
Lemma gesture_five_transitions_silent :
  let es := [tick true 1000; tick false 1100; tick true 1200; tick false 1300;
             tick true 1400] in
  manualSetupModeCounter after_setup = 0 /\
  gaps (stamp (tick true 1000)) (tl es) = [100; 100; 100; 100] /\
  fires es after_setup = [0; 0; 0; 0; 0]%nat /\
  manualSetupModeCounter (exec (gpioLoop (tick true 1000)) after_setup) = 0 /\
  manualSetupModeCounter
    (exec (gpioLoop (tick false 1500))
       (exec (gpioLoop (tick true 1400))
          (exec (gpioLoop (tick false 1300))
             (exec (gpioLoop (tick true 1200))
                (exec (gpioLoop (tick false 1100))
                   (exec (gpioLoop (tick true 1000)) after_setup)))))) = 5.
Proof. vm_compute. repeat split; reflexivity. Qed.

(** ** Command dispatcher *)

(** A keyword matches only a text that starts with the keyword's first byte. *)
Lemma startsWith_head (c k : ascii) (s rest : string) :
  startsWith (String c s) (String k rest) = true -> c = k.
Proof.
  unfold startsWith. cbn [prefix].
  destruct (ascii_dec k c) as [-> | _]; [reflexivity | discriminate].
Qed.

(** The callback runs the bodies of the tests that pass, in order. *)
Lemma mqttCallback_matched (e : Env) (payload : string) (d : Device) :
  mqttCallback e payload d = perform_all e (matched (cmd_of payload)) d.
Proof.
  unfold mqttCallback. fold (cmd_of payload).
  generalize (cmd_of payload) as cmd. intros cmd.
  unfold matched, command_order. cbn [filter keyword].
  destruct (startsWith cmd CMD_SETUP), (startsWith cmd CMD_RESET),
    (startsWith cmd CMD_OTA), (startsWith cmd CMD_ON), (startsWith cmd CMD_OFF);
    cbn [when perform_all perform];
    repeat first [ rewrite ret_bind | rewrite bind_ret_tt ];
    try reflexivity;
    repeat (apply bind_ext; intros; repeat first [ rewrite ret_bind | rewrite bind_ret_tt ]);
    reflexivity.
Qed.

Lemma matched_at_most_one (cmd : string) : (List.length (matched cmd) <= 1)%nat.
Proof.
  destruct cmd as [| c s]; [cbn; lia |].
  unfold matched, command_order. cbn [filter keyword].
  unfold CMD_SETUP, CMD_RESET, CMD_OTA, CMD_ON, CMD_OFF.
  destruct (startsWith (String c s) "set") eqn:H1;
  destruct (startsWith (String c s) "rst") eqn:H2;
  destruct (startsWith (String c s) "ota") eqn:H3;
  destruct (startsWith (String c s) "1") eqn:H4;
  destruct (startsWith (String c s) "0") eqn:H5;
  try (cbn [List.length]; lia);
  exfalso;
  repeat match goal with
         | H : startsWith (String _ _) (String _ _) = true |- _ =>
             apply startsWith_head in H
         end;
  congruence.
Qed.

Lemma filter_find_single {A : Type} (f : A -> bool) (l : list A) :
  (List.length (filter f l) <= 1)%nat ->
  filter f l = match find f l with Some x => [x] | None => [] end.
Proof.
  induction l as [| x l IH]; cbn [filter find]; [reflexivity |].
  destruct (f x); cbn [List.length]; intros H.
  - destruct (filter f l); [reflexivity | cbn in H; lia].
  - apply IH, H.
Qed.

(** C9. Whatever the payload, [mqttCallback] executes the bodies of the
    tests that pass, and at most one test passes: the five keywords start
    with five different bytes. *)
Theorem at_most_one_command :
  forall (e : Env) (payload : string) (d : Device),
    mqttCallback e payload d = perform_all e (matched (cmd_of payload)) d /\
    (List.length (matched (cmd_of payload)) <= 1)%nat /\
    NoDup (map (fun c => String.get 0 (keyword c)) command_order).
Proof.
  intros e payload d. split; [apply mqttCallback_matched |].
  split; [apply matched_at_most_one |].
  cbn. repeat constructor; cbn; intuition discriminate.
Qed.

(** C4. The dispatcher does what first-match-wins classification in the
    order EnterProvisioning, Reset, EnterUpdate, TurnOn, TurnOff
    prescribes: it performs the action of the first keyword that is a
    prefix of the text and nothing else. For "setota" that is the call
    [startWifiManager(true)]; update mode is not entered. *)
Theorem first_match_wins :
  forall (e : Env) (payload : string) (d : Device),
    mqttCallback e payload d =
      match classify (cmd_of payload) with
      | Some c => perform e c d
      | None => ret tt d
      end /\
    classify (cmd_of "setota") = Some EnterProvisioning /\
    portal_requests (trace (mqttCallback e "setota") d) = 1%nat /\
    ~ In OtaBegin (trace (mqttCallback e "setota") d) /\
    otaRunning (exec (mqttCallback e "setota") d) = otaRunning d.
Proof.
  intros e payload d.
  assert (Hgen : forall p d0, mqttCallback e p d0 =
            match classify (cmd_of p) with
            | Some c => perform e c d0
            | None => ret tt d0
            end).
  { intros p d0. rewrite mqttCallback_matched. unfold matched, classify.
    rewrite filter_find_single by apply matched_at_most_one.
    destruct (find _ command_order); cbn [perform_all]; [apply bind_ret_tt | reflexivity]. }
  split; [apply Hgen |].
  split; [reflexivity |].
  unfold exec, trace. rewrite Hgen.
  change (classify (cmd_of "setota")) with (Some EnterProvisioning).
  cbn [perform].
  destruct d as [off run ? ? ? ? ? ? mom s l flag tm cnt ? ? ? conn ? ?].
  destruct e as [sw ? ? ap ? ? ? ? ? ? ? ? ? ? ? ? ?].
  dozy_unfold.
  destruct run; dozy_unfold; [| destruct ap; dozy_unfold];
    (split; [reflexivity | split; [| reflexivity]]);
    cbn [In]; intuition discriminate.
Qed.

(** ** Connectivity session *)

Lemma connects_app (t1 t2 : list Event) :
  connects (t1 ++ t2) = (connects t1 + connects t2)%nat.
Proof.
  induction t1 as [| ev t1 IH]; [reflexivity |].
  destruct ev; cbn [app connects]; rewrite IH; reflexivity.
Qed.

(** One call of [mqttReconnect]: whether it attempts, what it returns and
    what it leaves in [mqttConnectDelay]. *)
Lemma mqttReconnect_step (e : Env) (d : Device) :
  let attempt := negb (mqtt_connected d) && (mqttConnectDelay d <? since_attempt d e) in
  let raised := wrap32 (mqttConnectDelay d + 1000) in
  let d' := exec (mqttReconnect e) d in
  connects (trace (mqttReconnect e) d) = (if attempt then 1%nat else 0%nat) /\
  val (mqttReconnect e d) = attempt && connect_ok e /\
  mqtt_connected d' = mqtt_connected d || (attempt && connect_ok e) /\
  mqttConnectDelay d' =
    (if attempt then
       if connect_ok e then 0 else if 60000 <? raised then 60000 else raised
     else mqttConnectDelay d) /\
  mqttConnectAttempt d' =
    (if attempt then wrap32 (t_attempt e) else mqttConnectAttempt d).
Proof.
  destruct d as [off run ? ? ? ? att del mom s l flag tm cnt ? ? ? conn ? ?].
  destruct e as [sw ? ? ap ? ? ? ? ? ? ok ? ? ? ? ? ?].
  unfold since_attempt. dozy_unfold. cbv [connects].
  destruct conn; dozy_unfold; [repeat split; reflexivity |].
  destruct (del <? wrap32 (wrap32 t_reconnect0 - att)); dozy_unfold;
    [| repeat split; reflexivity].
  destruct (60000 <? wrap32 (del + 1000)); dozy_unfold;
    destruct ok; dozy_unfold; repeat split; reflexivity.
Qed.

Lemma reconnects_failing (es : list Env) :
  forall (d : Device) (k : Z),
    0 <= k ->
    mqtt_connected d = false ->
    mqttConnectDelay d = Z.min (1000 * k) 60000 ->
    Forall (fun e => connect_ok e = false) es ->
    mqttConnectDelay (exec (reconnects es) d) =
      Z.min (1000 * (k + Z.of_nat (connects (trace (reconnects es) d)))) 60000.
Proof.
  induction es as [| e es IH]; intros d k Hk Hc Hd Hf.
  - cbn. rewrite Z.add_0_r. exact Hd.
  - inversion_clear Hf as [| ? ? Hfail Hrest].
    cbn [reconnects]. rewrite exec_bind, trace_bind, connects_app.
    destruct (mqttReconnect_step e d) as (Hn & _ & Hconn & Hdel & _).
    rewrite Hc, Hfail in Hconn, Hdel. cbn [negb andb orb] in Hconn, Hdel.
    rewrite andb_false_r in Hconn.
    rewrite Hc in Hn. cbn [negb andb] in Hn.
    rewrite Hn.
    assert (Hw : wrap32 (mqttConnectDelay d + 1000) = mqttConnectDelay d + 1000)
      by (unfold wrap32; apply Z.mod_small; lia).
    rewrite Hw in Hdel.
    destruct (mqttConnectDelay d <? since_attempt d e).
    + rewrite (IH _ (k + 1)); [f_equal; lia | lia | exact Hconn | | exact Hrest].
      rewrite Hdel.
      destruct (60000 <? mqttConnectDelay d + 1000) eqn:Hcap;
        [apply Z.ltb_lt in Hcap | apply Z.ltb_ge in Hcap]; lia.
    + rewrite (IH _ k); [f_equal | lia | exact Hconn | rewrite Hdel; exact Hd | exact Hrest].
Qed.

(** The calls of one [mqttReconnect]. *)
Lemma mqttReconnect_trace (e : Env) (d : Device) :
  trace (mqttReconnect e) d =
    (if mqtt_connected d then []
     else Millis AtReconnect ::
          (if mqttConnectDelay d <? since_attempt d e then
             Millis AtAttempt :: MqttConnect ::
             (if connect_ok e then [MqttSubscribe] else [])
           else [])).
Proof.
  destruct d as [off run ? ? ? ? att del mom s l flag tm cnt ? ? ? conn ? ?].
  destruct e as [sw ? ? ap ? ? ? ? ? ? ok ? ? ? ? ? ?].
  unfold since_attempt. dozy_unfold.
  destruct conn; dozy_unfold; [reflexivity |].
  destruct (del <? wrap32 (wrap32 t_reconnect0 - att)); dozy_unfold; [| reflexivity].
  destruct (60000 <? wrap32 (del + 1000)); dozy_unfold; destruct ok; reflexivity.
Qed.

Lemma reconnects_failing_connected (es : list Env) :
  forall d : Device,
    mqtt_connected d = false ->
    Forall (fun e => connect_ok e = false) es ->
    mqtt_connected (exec (reconnects es) d) = false.
Proof.
  induction es as [| e es IH]; intros d Hc Hf; [exact Hc |].
  inversion_clear Hf as [| ? ? Hfail Hrest].
  cbn [reconnects]. rewrite exec_bind. apply IH; [| exact Hrest].
  destruct (mqttReconnect_step e d) as (_ & _ & Hconn & _).
  rewrite Hconn, Hc, Hfail, andb_false_r. reflexivity.
Qed.

Lemma reconnects_app (es : list Env) (e : Env) :
  forall d : Device,
    exec (reconnects (es ++ [e])) d = exec (mqttReconnect e) (exec (reconnects es) d).
Proof.
  induction es as [| e1 es IH]; intros d.
  - cbn [app reconnects]. rewrite exec_bind. reflexivity.
  - cbn [app reconnects]. rewrite !exec_bind. apply IH.
Qed.

(** C5. While connecting fails, [mqttConnectDelay] after the i-th attempt
    is min(1000*i, 60000). [mqttReconnect] attempts exactly when the client
    is not connected and the 32-bit time since the last attempt exceeds
    [mqttConnectDelay]; every attempt records its time in
    [mqttConnectAttempt]; a failed attempt raises the delay by 1000 up to
    60000 and returns false. An attempt on which the broker accepts the
    connection returns true, subscribes, and sets [mqttConnectDelay] to 0
    at once, also when it follows any number of failed attempts. *)
Theorem backoff_after_failures :
  (forall (es : list Env) (d : Device),
     mqtt_connected d = false ->
     mqttConnectDelay d = 0 ->
     Forall (fun e => connect_ok e = false) es ->
     mqttConnectDelay (exec (reconnects es) d) =
       Z.min (1000 * Z.of_nat (connects (trace (reconnects es) d))) 60000) /\
  (forall (e : Env) (d : Device),
     let attempt :=
       negb (mqtt_connected d) && (mqttConnectDelay d <? since_attempt d e) in
     let raised := wrap32 (mqttConnectDelay d + 1000) in
     let d' := exec (mqttReconnect e) d in
     connects (trace (mqttReconnect e) d) = (if attempt then 1%nat else 0%nat) /\
     val (mqttReconnect e d) = attempt && connect_ok e /\
     mqtt_connected d' = mqtt_connected d || (attempt && connect_ok e) /\
     mqttConnectDelay d' =
       (if attempt then
          if connect_ok e then 0 else if 60000 <? raised then 60000 else raised
        else mqttConnectDelay d) /\
     mqttConnectAttempt d' =
       (if attempt then wrap32 (t_attempt e) else mqttConnectAttempt d)) /\
  (forall (e : Env) (d : Device),
     mqtt_connected d = false ->
     mqttConnectDelay d < since_attempt d e ->
     connect_ok e = true ->
     val (mqttReconnect e d) = true /\
     trace (mqttReconnect e) d =
       [Millis AtReconnect; Millis AtAttempt; MqttConnect; MqttSubscribe] /\
     mqtt_connected (exec (mqttReconnect e) d) = true /\
     mqttConnectDelay (exec (mqttReconnect e) d) = 0 /\
     mqttConnectAttempt (exec (mqttReconnect e) d) = wrap32 (t_attempt e)) /\
  (forall (es : list Env) (e : Env) (d : Device),
     mqtt_connected d = false ->
     mqttConnectDelay d = 0 ->
     Forall (fun e' => connect_ok e' = false) es ->
     connect_ok e = true ->
     mqttConnectDelay (exec (reconnects es) d) < since_attempt (exec (reconnects es) d) e ->
     mqttConnectDelay (exec (reconnects (es ++ [e])) d) = 0 /\
     mqtt_connected (exec (reconnects (es ++ [e])) d) = true).
Proof.
  assert (Hok : forall (e : Env) (d : Device),
            mqtt_connected d = false ->
            mqttConnectDelay d < since_attempt d e ->
            connect_ok e = true ->
            val (mqttReconnect e d) = true /\
            trace (mqttReconnect e) d =
              [Millis AtReconnect; Millis AtAttempt; MqttConnect; MqttSubscribe] /\
            mqtt_connected (exec (mqttReconnect e) d) = true /\
            mqttConnectDelay (exec (mqttReconnect e) d) = 0 /\
            mqttConnectAttempt (exec (mqttReconnect e) d) = wrap32 (t_attempt e)).
  { intros e d Hc Hg Hs. apply Z.ltb_lt in Hg.
    destruct (mqttReconnect_step e d) as (_ & Hval & Hconn & Hdel & Hatt).
    pose proof (mqttReconnect_trace e d) as Ht.
    rewrite Hc, Hg, Hs in *. cbn [negb andb orb] in *. auto. }
  split; [| split; [| split]].
  - intros es d Hc Hd Hf.
    rewrite (reconnects_failing es d 0); [f_equal | lia | exact Hc | rewrite Hd; reflexivity | exact Hf].
  - intros e d. apply (mqttReconnect_step e d).
  - exact Hok.
  - intros es e d Hc Hd Hf Hs Hg.
    rewrite reconnects_app.
    pose proof (reconnects_failing_connected es d Hc Hf) as Hc1.
    destruct (Hok e (exec (reconnects es) d) Hc1 Hg Hs) as (_ & _ & C & D & _).
    split; assumption.
Qed.

Lemma backoff_after_failures_witness :
  let es := [tick false 1000; tick false 1500; tick false 3000; tick false 6000] in
  let e := tick_online false 20000 [] in
  connects (trace (reconnects es) boot) = 3%nat /\
  mqttConnectDelay (exec (reconnects es) boot) = 3000 /\
  val (mqttReconnect e (exec (reconnects es) boot)) = true /\
  mqttConnectAttempt (exec (mqttReconnect e) (exec (reconnects es) boot)) = 20000 /\
  mqttConnectDelay (exec (reconnects (es ++ [e])) boot) = 0 /\
  mqtt_connected (exec (reconnects (es ++ [e])) boot) = true.
Proof.
  cbv zeta.
  destruct backoff_after_failures as (Hfail & _ & Hok & Hrun).
  split; [reflexivity |].
  split.
  { rewrite Hfail; [reflexivity | reflexivity | reflexivity | repeat constructor]. }
  destruct (Hok (tick_online false 20000 [])
              (exec (reconnects [tick false 1000; tick false 1500; tick false 3000;
                                 tick false 6000]) boot))
    as (Hv & _ & _ & _ & Ha);
    [reflexivity | apply Z.ltb_lt; reflexivity | reflexivity |].
  split; [exact Hv |]. split; [exact Ha |].
  apply (Hrun [tick false 1000; tick false 1500; tick false 3000; tick false 6000]
           (tick_online false 20000 []) boot);
    [reflexivity | reflexivity | repeat constructor | reflexivity
    | apply Z.ltb_lt; reflexivity].
Defined.

(** ** Rules for [preserves] *)

Section PreservesRules.
Context {A B : Type} (P : Device -> Prop).

Lemma preserves_ret (a : A) : preserves P (ret a).
  Proof. intros d H. exact H. Qed.

Lemma preserves_get : preserves P get.
  Proof. intros d H. exact H. Qed.

Lemma preserves_emit (ev : Event) : preserves P (emit ev).
  Proof. intros d H. exact H. Qed.

Lemma preserves_modify (f : Device -> Device) :
    (forall d, P d -> P (f d)) -> preserves P (modify f).
  Proof. intros Hf d H. apply Hf, H. Qed.

Lemma preserves_bind (m : M A) (k : A -> M B) :
    preserves P m -> (forall a, preserves P (k a)) -> preserves P (bind m k).
  Proof. intros Hm Hk d H. rewrite exec_bind. apply Hk, Hm, H. Qed.

Lemma preserves_when (b : bool) (m : M unit) :
    preserves P m -> preserves P (when b m).
  Proof. intros Hm. destruct b; [exact Hm | intros d H; exact H]. Qed.

Lemma preserves_repeat_m (n : nat) (m : M unit) :
    preserves P m -> preserves P (repeat_m n m).
  Proof.
    intros Hm. induction n as [| n IH]; cbn [repeat_m].
    - intros d H. exact H.
    - intros d H. rewrite exec_bind. apply IH, Hm, H.
  Qed.
End PreservesRules.

(** The steps that follow the shape of a computation. *)
Ltac preserves_shape :=
  match goal with
  | |- preserves _ (bind _ _) => apply preserves_bind; [| intros ?]
  | |- preserves _ (ret _) => apply preserves_ret
  | |- preserves _ get => apply preserves_get
  | |- preserves _ (emit _) => apply preserves_emit
  | |- preserves _ (when _ _) => apply preserves_when
  | |- preserves _ (repeat_m _ _) => apply preserves_repeat_m
  | |- preserves _ (millis _ _) => unfold millis
  | |- preserves _ (if ?c then _ else _) => destruct c
  | |- preserves _ (match ?c with _ => _ end) => destruct c
  end.

(** ** The relay invariant *)

Section RelayProperty.
Variable P : Device -> Prop.
Hypothesis P_relay : relay_property P.

  (** A write to a global other than [lState] keeps [P]. *)
Ltac keep_modify :=
    match goal with
    | |- preserves _ (modify _) =>
        apply preserves_modify;
        let d := fresh "d" in
        let H := fresh "H" in
        intros d H; apply (P_relay d); [reflexivity | reflexivity | reflexivity | exact H]
    | |- preserves _ (digitalWrite LED_RED _) => unfold digitalWrite; cbv beta iota
    end.

Ltac keep := repeat first [ preserves_shape | keep_modify | assumption ].

Lemma mqttCommunicate_keeps : preserves P mqttCommunicate.
  Proof. unfold mqttCommunicate. keep. Qed.

Lemma ledTick_keeps : preserves P ledTick.
  Proof. unfold ledTick. keep. Qed.

Lemma wifiManagerSetupStarted_keeps (t : Z) : preserves P (wifiManagerSetupStarted t).
  Proof. unfold wifiManagerSetupStarted. keep. Qed.

Lemma wifiManagerSetupStopped_keeps : preserves P wifiManagerSetupStopped.
  Proof. unfold wifiManagerSetupStopped. keep. Qed.

Lemma saveParamsCallback_keeps (checkbox : bool) : preserves P (saveParamsCallback checkbox).
  Proof. unfold saveParamsCallback, wifiManagerSetupStopped. keep. Qed.

Lemma startWifiManager_keeps (e : Env) (onDemand : bool) :
    preserves P (startWifiManager e onDemand).
  Proof. unfold startWifiManager, wifiManagerSetupStarted. keep. Qed.

Lemma wifimanagerLoop_keeps (e : Env) : preserves P (wifimanagerLoop e).
  Proof. unfold wifimanagerLoop, saveParamsCallback, wifiManagerSetupStopped. keep. Qed.

Lemma mqttReconnect_keeps (e : Env) : preserves P (mqttReconnect e).
  Proof. unfold mqttReconnect. keep. Qed.

Lemma between_keeps (e : Env) : preserves P (between e).
  Proof. unfold between. keep. apply ledTick_keeps. Qed.

  (** Computations that call [enableL] and [disableL] keep what these keep. *)
Hypothesis enableL_keeps : preserves P enableL.
Hypothesis disableL_keeps : preserves P disableL.

Ltac keep_calls :=
    repeat first
      [ preserves_shape | keep_modify | assumption
      | apply mqttCommunicate_keeps | apply startWifiManager_keeps
      | apply wifimanagerLoop_keeps | apply mqttReconnect_keeps ].

Lemma gpioLoop_keeps (e : Env) : preserves P (gpioLoop e).
  Proof. unfold gpioLoop. keep_calls. Qed.

Lemma mqttCallback_keeps (e : Env) (payload : string) : preserves P (mqttCallback e payload).
  Proof. unfold mqttCallback. keep_calls. Qed.

Lemma deliver_keeps (e : Env) (payloads : list string) : preserves P (deliver e payloads).
  Proof.
    induction payloads as [| p ps IH]; cbn [deliver]; keep_calls.
    apply mqttCallback_keeps.
  Qed.

Lemma mqttLoop_keeps (e : Env) : preserves P (mqttLoop e).
  Proof. unfold mqttLoop, mqttClient_loop. keep_calls; apply deliver_keeps. Qed.

Lemma loop_normal_keeps (e : Env) : preserves P (loop_normal e).
  Proof. unfold loop_normal. keep_calls; first [apply gpioLoop_keeps | apply mqttLoop_keeps]. Qed.

Lemma loop_restart_keeps : preserves P loop_restart.
  Proof. unfold loop_restart. keep_calls. Qed.

Lemma loop_update_keeps (e : Env) :
    preserves P otaProgress \/ ota_progress e = O -> preserves P (loop_update e).
  Proof.
    intros [Hp | Hn]; unfold loop_update; [| rewrite Hn; cbn [repeat_m]]; keep_calls.
  Qed.

Lemma loop_keeps (e : Env) (d : Device) :
    preserves P otaProgress \/ ota_progress e = O \/ otaRunning d = false ->
    P d -> P (exec (loop e) d).
  Proof.
    intros Hcase H. unfold loop. rewrite exec_bind. cbn [get val exec st].
    rewrite exec_bind. apply loop_restart_keeps.
    destruct (otaRunning d) eqn:Hota.
    - apply loop_update_keeps; [| exact H].
      destruct Hcase as [Hp | [Hn | Hf]]; [left; exact Hp | right; exact Hn | discriminate].
    - apply loop_normal_keeps, H.
  Qed.
End RelayProperty.

(** What happens between two passes touches the red LED and the broker
    connection only. *)
Section BetweenFrame.
Variable Q : Device -> Prop.
Hypothesis Q_red : forall v d, Q d -> Q (set_pin_LED_RED v d).
Hypothesis Q_conn : forall v d, Q d -> Q (set_mqtt_connected v d).

Lemma between_frame (e : Env) : preserves Q (between e).
  Proof.
    unfold between, ledTick, digitalWrite.
    repeat first
      [ preserves_shape
      | apply preserves_modify; intros; first [apply Q_red | apply Q_conn]; assumption ].
  Qed.
End BetweenFrame.

Lemma between_otaRunning (e : Env) (d : Device) :
  otaRunning (exec (between e) d) = otaRunning d.
Proof.
  apply (between_frame (fun d' => otaRunning d' = otaRunning d)); auto.
Qed.

Lemma relay_follows_property : relay_property relay_follows.
Proof. unfold relay_property, relay_follows. intros. congruence. Qed.

Lemma both_follow_property :
  relay_property (fun d => relay_follows d /\ green_follows d).
Proof.
  unfold relay_property, relay_follows, green_follows.
  intros d d' H1 H2 H3 [Hr Hg]. split; congruence.
Qed.

Lemma frame_property (r l : bool) :
  relay_property (fun d => pin_RELAY d = r /\ lState d = l).
Proof. unfold relay_property. intros d d' H1 _ H3 [Hr Hl]. split; congruence. Qed.

(** A computation that keeps every relay property writes neither the relay
    pin nor [lState]. *)
Lemma keeps_relay_of {A : Type} (m : M A) :
  (forall P, relay_property P -> preserves P m) -> keeps_relay m.
Proof.
  intros H d.
  apply (H _ (frame_property (pin_RELAY d) (lState d)) d). split; reflexivity.
Qed.

Lemma relay_ops_establish (d : Device) :
  (relay_follows (exec enableL d) /\ green_follows (exec enableL d) /\
   pin_RELAY (exec enableL d) = HIGH /\ lState (exec enableL d) = true) /\
  (relay_follows (exec disableL d) /\ green_follows (exec disableL d) /\
   pin_RELAY (exec disableL d) = LOW /\ lState (exec disableL d) = false).
Proof.
  destruct d as [off ? ? ? ? ? ? ? ? ? ? flag ? ? ? ? ? conn ? ?].
  unfold relay_follows, green_follows. dozy_unfold.
  destruct off, conn; dozy_unfold; repeat split; reflexivity.
Qed.

Lemma otaProgress_relay : keeps_relay otaProgress /\ preserves relay_follows otaProgress.
Proof.
  assert (H : keeps_relay otaProgress).
  { intros d. destruct d as [? ? ? ? ? ? ? ? ? ? ? ? ? ? ? ? red ? ? ?].
    dozy_unfold. destruct red; dozy_unfold; split; reflexivity. }
  split; [exact H |].
  intros d Hd. unfold relay_follows in *.
  destruct (H d) as [H1 H2]. congruence.
Qed.

Lemma setup_relay (e : Env) :
  keeps_relay (setup e) /\
  (forall d, lState d = false -> green_follows (exec (setup e) d)).
Proof.
  split.
  - intros d. destruct d as [? run ? ? ? ? ? ? ? ? ? ? ? ? ? ? ? ? ? ?].
    destruct e as [sw ? ? ap cfg ? ? ? ? ? ? ? ? ? ? ? ?].
    dozy_unfold. destruct run; dozy_unfold; [split; reflexivity |].
    destruct cfg, ap; dozy_unfold; split; reflexivity.
  - intros d Hl. destruct d as [? run ? ? ? ? ? ? ? ? l ? ? ? ? ? ? ? ? ?].
    destruct e as [sw ? ? ap cfg ? ? ? ? ? ? ? ? ? ? ? ?].
    unfold green_follows. dozy_unfold. subst l.
    destruct run; dozy_unfold; [reflexivity |].
    destruct cfg, ap; dozy_unfold; reflexivity.
Qed.

(** C10. The relay output is high exactly when [lState] is
    true after every operation once it holds; [enableL] and [disableL]
    set relay pin, green LED and [lState] together, and no other function
    of the sketch writes the relay pin or [lState]. The green LED follows
    [lState] after [setup()] and through every pass of [loop()] outside
    update mode or without OTA progress; the progress callback of the
    update alone drives the green LED regardless of [lState]. *)
Theorem relay_invariant :
  (forall d, relay_follows (exec enableL d) /\ green_follows (exec enableL d) /\
             pin_RELAY (exec enableL d) = HIGH /\ lState (exec enableL d) = true) /\
  (forall d, relay_follows (exec disableL d) /\ green_follows (exec disableL d) /\
             pin_RELAY (exec disableL d) = LOW /\ lState (exec disableL d) = false) /\
  (forall e d, relay_follows d ->
     relay_follows (exec (setup e) d) /\ relay_follows (exec (pass e) d)) /\
  (forall e d, lState d = false -> green_follows (exec (setup e) d)) /\
  (forall e d, ota_progress e = O \/ otaRunning d = false ->
     relay_follows d /\ green_follows d ->
     relay_follows (exec (pass e) d) /\ green_follows (exec (pass e) d)) /\
  (keeps_relay mqttCommunicate /\ keeps_relay ledTick /\ keeps_relay otaProgress /\
   (forall t, keeps_relay (wifiManagerSetupStarted t)) /\
   keeps_relay wifiManagerSetupStopped /\
   (forall b, keeps_relay (saveParamsCallback b)) /\
   (forall e b, keeps_relay (startWifiManager e b)) /\
   (forall e, keeps_relay (setup e)) /\
   (forall e, keeps_relay (wifimanagerLoop e)) /\
   (forall e, keeps_relay (mqttReconnect e)) /\
   (forall e, keeps_relay (between e))).
Proof.
  assert (En : forall d0, relay_follows (exec enableL d0) /\
             green_follows (exec enableL d0)).
  { intros d0. destruct (relay_ops_establish d0) as [(H1 & H2 & _) _]. split; assumption. }
  assert (Dis : forall d0, relay_follows (exec disableL d0) /\
             green_follows (exec disableL d0)).
  { intros d0. destruct (relay_ops_establish d0) as [_ (H1 & H2 & _)]. split; assumption. }
  split; [intros d; exact (proj1 (relay_ops_establish d)) |].
  split; [intros d; exact (proj2 (relay_ops_establish d)) |].
  split.
  { intros e d Hd. split.
    - unfold relay_follows in *. destruct (proj1 (setup_relay e) d) as [H1 H2]. congruence.
    - unfold pass. rewrite exec_bind.
      refine (loop_keeps relay_follows relay_follows_property _ _ e _ _ _).
      + intros d0 _. exact (proj1 (En d0)).
      + intros d0 _. exact (proj1 (Dis d0)).
      + left. exact (proj2 otaProgress_relay).
      + exact (between_keeps _ relay_follows_property e d Hd). }
  split; [intros e d; exact (proj2 (setup_relay e) d) |].
  split.
  { intros e d Hcase Hd. unfold pass. rewrite exec_bind.
    refine (loop_keeps _ both_follow_property _ _ e _ _ _).
    - intros d0 _. exact (En d0).
    - intros d0 _. exact (Dis d0).
    - right. rewrite between_otaRunning. exact Hcase.
    - exact (between_keeps _ both_follow_property e d Hd). }
  split; [exact (keeps_relay_of _ (fun P HP => mqttCommunicate_keeps P HP)) |].
  split; [exact (keeps_relay_of _ (fun P HP => ledTick_keeps P HP)) |].
  split; [exact (proj1 otaProgress_relay) |].
  split; [exact (fun t => keeps_relay_of _ (fun P HP => wifiManagerSetupStarted_keeps P HP t)) |].
  split; [exact (keeps_relay_of _ (fun P HP => wifiManagerSetupStopped_keeps P HP)) |].
  split; [exact (fun b => keeps_relay_of _ (fun P HP => saveParamsCallback_keeps P HP b)) |].
  split; [exact (fun e b => keeps_relay_of _ (fun P HP => startWifiManager_keeps P HP e b)) |].
  split; [exact (fun e => proj1 (setup_relay e)) |].
  split; [exact (fun e => keeps_relay_of _ (fun P HP => wifimanagerLoop_keeps P HP e)) |].
  split; [exact (fun e => keeps_relay_of _ (fun P HP => mqttReconnect_keeps P HP e)) |].
  exact (fun e => keeps_relay_of _ (fun P HP => between_keeps P HP e)).
Qed.

Lemma relay_invariant_witness :
  relay_follows (exec (pass (tick_online false 20 ["1"])) online_idle) /\
  green_follows (exec (pass (tick_online false 20 ["1"])) online_idle).
Proof.
  apply (proj1 (proj2 (proj2 (proj2 (proj2 relay_invariant))))).
  - left. reflexivity.
  - split; reflexivity.
Defined.

(** Against the wording of C10 in the specification: with the relay on,
    the first progress callback of an update switches the green LED off. *)
Lemma ota_progress_breaks_green :
  otaRunning updating_on = true /\
  lState updating_on = true /\
  relay_follows updating_on /\
  green_follows updating_on /\
  pin_LED_GREEN (exec otaProgress updating_on) = HIGH /\
  lState (exec (loop (tick_progress 40 1)) updating_on) = true /\
  pin_LED_GREEN (exec (loop (tick_progress 40 1)) updating_on) = HIGH /\
  ~ green_follows (exec (loop (tick_progress 40 1)) updating_on).
Proof.
  unfold relay_follows, green_follows. vm_compute.
  repeat split; try reflexivity. discriminate.
Qed.

(** ** Rules for [emits] *)

Section EmitsRules.
Context {A B : Type} (q : Event -> bool).

Lemma emits_ret (a : A) : emits q (ret a).
  Proof. intros d. reflexivity. Qed.

Lemma emits_get : emits q get.
  Proof. intros d. reflexivity. Qed.

Lemma emits_modify (f : Device -> Device) : emits q (modify f).
  Proof. intros d. reflexivity. Qed.

Lemma emits_emit (ev : Event) : q ev = true -> emits q (emit ev).
  Proof. intros H d. unfold trace, emit. cbn. rewrite H. reflexivity. Qed.

Lemma emits_bind (m : M A) (k : A -> M B) :
    emits q m -> (forall a, emits q (k a)) -> emits q (bind m k).
  Proof.
    intros Hm Hk d. rewrite trace_bind, forallb_app, Hm, Hk. reflexivity.
  Qed.

Lemma emits_when (b : bool) (m : M unit) : emits q m -> emits q (when b m).
  Proof. intros Hm. destruct b; [exact Hm | intros d; reflexivity]. Qed.

Lemma emits_repeat_m (n : nat) (m : M unit) : emits q m -> emits q (repeat_m n m).
  Proof.
    intros Hm. induction n as [| n IH]; cbn [repeat_m].
    - intros d. reflexivity.
    - intros d. rewrite trace_bind, forallb_app, Hm, IH. reflexivity.
  Qed.
End EmitsRules.

Ltac emits_shape :=
  match goal with
  | |- emits _ (bind _ _) => apply emits_bind; [| intros ?]
  | |- emits _ (ret _) => apply emits_ret
  | |- emits _ get => apply emits_get
  | |- emits _ (modify _) => apply emits_modify
  | |- emits _ (emit _) => apply emits_emit; reflexivity
  | |- emits _ (when _ _) => apply emits_when
  | |- emits _ (repeat_m _ _) => apply emits_repeat_m
  | |- emits _ (millis _ _) => unfold millis
  | |- emits _ (digitalWrite _ _) => unfold digitalWrite
  | |- emits _ (if ?c then _ else _) => destruct c
  | |- emits _ (match ?c with _ => _ end) => destruct c
  end.

(** ** Phases of the sketch's functions *)

Section PhaseOf.
Variable p : Phase.

  (** Functions called from several places emit no event that has a phase. *)
Lemma mqttCommunicate_phase : emits (of_phase p) mqttCommunicate.
  Proof. unfold mqttCommunicate. repeat emits_shape. Qed.

Lemma enableL_phase : emits (of_phase p) enableL.
  Proof. unfold enableL. repeat first [emits_shape | apply mqttCommunicate_phase]. Qed.

Lemma disableL_phase : emits (of_phase p) disableL.
  Proof. unfold disableL. repeat first [emits_shape | apply mqttCommunicate_phase]. Qed.

Lemma startWifiManager_phase (e : Env) (onDemand : bool) :
    emits (of_phase p) (startWifiManager e onDemand).
  Proof. unfold startWifiManager, wifiManagerSetupStarted. repeat emits_shape. Qed.

Lemma otaProgress_phase : emits (of_phase p) otaProgress.
  Proof. unfold otaProgress. repeat emits_shape. Qed.

Lemma mqttCallback_phase (e : Env) (payload : string) :
    emits (of_phase p) (mqttCallback e payload).
  Proof.
    unfold mqttCallback.
    repeat first [ emits_shape | apply startWifiManager_phase
                 | apply enableL_phase | apply disableL_phase ].
  Qed.

Lemma deliver_phase (e : Env) (payloads : list string) :
    emits (of_phase p) (deliver e payloads).
  Proof.
    induction payloads as [| x xs IH]; cbn [deliver].
    - apply emits_ret.
    - apply emits_bind; [apply mqttCallback_phase | intros _; exact IH].
  Qed.
End PhaseOf.

Lemma gpioLoop_phase (e : Env) : emits (of_phase SwitchInput) (gpioLoop e).
Proof.
  unfold gpioLoop.
  repeat first [ emits_shape | apply startWifiManager_phase | apply mqttCommunicate_phase
               | apply enableL_phase | apply disableL_phase ].
Qed.

Lemma mqttLoop_phase (e : Env) : emits (of_phase Connectivity) (mqttLoop e).
Proof.
  unfold mqttLoop, mqttClient_loop, mqttReconnect.
  repeat first [ emits_shape | apply deliver_phase ].
Qed.

Lemma loop_update_phase (e : Env) : emits (of_phase ModeTimeout) (loop_update e).
Proof. unfold loop_update. repeat first [ emits_shape | apply otaProgress_phase ]. Qed.

(** ** Order of the phases *)

Lemma ranks_app (rank : Phase -> nat) (t1 t2 : list Event) :
  ranks rank (t1 ++ t2) = ranks rank t1 ++ ranks rank t2.
Proof.
  induction t1 as [| ev t1 IH]; [reflexivity |].
  cbn [app ranks]. destruct (phase ev); rewrite IH; reflexivity.
Qed.

Lemma nondecreasing_cons (x y : nat) (l : list nat) :
  nondecreasing (x :: y :: l) = (x <=? y)%nat && nondecreasing (y :: l).
Proof. reflexivity. Qed.

Lemma within_cons (a b x : nat) (l : list nat) :
  within a b (x :: l) = true ->
  (a <= x <= b)%nat /\ within a b l = true /\
  match l with [] => True | y :: _ => (x <= y)%nat end.
Proof.
  unfold within. intros H. apply andb_true_iff in H. destruct H as [Hs Hb].
  cbn [forallb] in Hb. apply andb_true_iff in Hb. destruct Hb as [Hx Hb].
  apply andb_true_iff in Hx. destruct Hx as [Hx1 Hx2].
  apply Nat.leb_le in Hx1. apply Nat.leb_le in Hx2.
  split; [lia |]. destruct l as [| y l].
  - split; [reflexivity | exact I].
  - rewrite nondecreasing_cons in Hs. apply andb_true_iff in Hs. destruct Hs as [Hxy Hs].
    apply Nat.leb_le in Hxy. rewrite Hs, Hb. split; [reflexivity | exact Hxy].
Qed.

Lemma within_intro (a b x : nat) (l : list nat) :
  (a <= x <= b)%nat -> within a b l = true ->
  match l with [] => True | y :: _ => (x <= y)%nat end ->
  within a b (x :: l) = true.
Proof.
  unfold within. intros Hx H Hhd. apply andb_true_iff in H. destruct H as [Hs Hb].
  apply andb_true_iff. split.
  - destruct l as [| y l]; [reflexivity |].
    rewrite nondecreasing_cons, Hs, andb_true_r. apply Nat.leb_le, Hhd.
  - cbn [forallb]. rewrite Hb, andb_true_r.
    apply andb_true_iff. split; apply Nat.leb_le; lia.
Qed.

Lemma within_weaken (a b c d : nat) (l : list nat) :
  (c <= a)%nat -> (b <= d)%nat -> within a b l = true -> within c d l = true.
Proof.
  intros Hca Hbd. induction l as [| x l IH]; [reflexivity |].
  intros H. apply within_cons in H. destruct H as (Hx & Hl & Hhd).
  apply within_intro; [lia | apply IH, Hl | exact Hhd].
Qed.

Lemma within_app (a b c d : nat) (l1 l2 : list nat) :
  (a <= c)%nat -> (b <= c)%nat -> (b <= d)%nat ->
  within a b l1 = true -> within c d l2 = true ->
  within a d (l1 ++ l2) = true.
Proof.
  intros Hac Hbc Hbd. induction l1 as [| x l1 IH]; intros H1 H2.
  - cbn [app]. apply (within_weaken c d); [lia | lia | exact H2].
  - apply within_cons in H1. destruct H1 as (Hx & Hl & Hhd).
    cbn [app]. apply within_intro; [lia | apply IH; assumption |].
    destruct l1 as [| y l1]; [| exact Hhd].
    cbn [app]. destruct l2 as [| z l2]; [exact I |].
    apply within_cons in H2. lia.
Qed.

Lemma within_of_phase (p : Phase) (t : list Event) :
  forallb (of_phase p) t = true ->
  within (code_rank p) (code_rank p) (ranks code_rank t) = true.
Proof.
  induction t as [| ev t IH]; [reflexivity |].
  cbn [forallb]. intros H. apply andb_true_iff in H. destruct H as [Hev Ht].
  specialize (IH Ht). cbn [ranks]. unfold of_phase in Hev.
  destruct (phase ev) as [p' |]; [| exact IH].
  apply Nat.eqb_eq in Hev. rewrite Hev.
  apply (within_app _ (code_rank p) (code_rank p) _ [code_rank p] _); try lia; [| exact IH].
  unfold within. cbn. rewrite Nat.leb_refl. reflexivity.
Qed.

Lemma no_restart_of_phase (p : Phase) (t : list Event) :
  p <> PendingRestart ->
  forallb (of_phase p) t = true ->
  forallb (fun ev => negb (is_restart_event ev)) t = true.
Proof.
  intros Hp. induction t as [| ev t IH]; [reflexivity |].
  cbn [forallb]. intros H. apply andb_true_iff in H. destruct H as [Hev Ht].
  rewrite (IH Ht), andb_true_r.
  destruct ev; try reflexivity; destruct p; try discriminate Hev; contradiction.
Qed.

Lemma wifimanagerLoop_order (e : Env) (d : Device) :
  within 1 2 (ranks code_rank (trace (wifimanagerLoop e) d)) = true /\
  forallb (fun ev => negb (is_restart_event ev)) (trace (wifimanagerLoop e) d) = true.
Proof.
  destruct d as [off run ? ? ? ? ? ? ? ? ? ? ? ? ? ? ? ? ? ?].
  destruct e as [? ? ? ? ? saved ? wifi ? ? ? ? ? ? ? ? ?].
  dozy_unfold.
  destruct saved, run, off, wifi; dozy_run; split; reflexivity.
Qed.

Lemma loop_restart_spec (d : Device) :
  trace loop_restart d = RestartCheck :: (if restart d then [EspRestart] else []) /\
  exec loop_restart d = (if restart d then set_rebooted true d else d) /\
  restart (exec loop_restart d) = restart d.
Proof.
  destruct d as [? ? ? ? ? rst ? ? ? ? ? ? ? ? ? ? ? ? ? ?].
  dozy_unfold. destruct rst; repeat split; reflexivity.
Qed.

Lemma loop_normal_order (e : Env) (d : Device) :
  within 0 2 (ranks code_rank (trace (loop_normal e) d)) = true /\
  forallb (fun ev => negb (is_restart_event ev)) (trace (loop_normal e) d) = true /\
  hd_error (trace (loop_normal e) d) = Some (DigitalRead SWITCH).
Proof.
  unfold loop_normal. rewrite trace_bind.
  set (d1 := exec (gpioLoop e) d). rewrite trace_bind.
  set (d2 := exec (wifimanagerLoop e) d1).
  set (tail := (d0 <- get;; when (negb (offline d0)) (mqttLoop e);; emit (Delay LOOP_DELAY_MS))).
  assert (Htail : emits (of_phase Connectivity) tail).
  { unfold tail. repeat first [emits_shape | apply mqttLoop_phase]. }
  pose proof (gpioLoop_phase e d) as Hg.
  destruct (wifimanagerLoop_order e d1) as [Hw1 Hw2].
  split; [| split].
  - rewrite !ranks_app.
    apply (within_app 0 0 1 2); try lia; [apply (within_of_phase SwitchInput), Hg |].
    apply (within_app 1 2 2 2); try lia; [exact Hw1 |].
    apply (within_of_phase Connectivity), Htail.
  - rewrite !forallb_app, Hw2.
    rewrite (no_restart_of_phase SwitchInput) by (discriminate || exact Hg).
    rewrite (no_restart_of_phase Connectivity) by (discriminate || apply Htail).
    reflexivity.
  - unfold gpioLoop. rewrite trace_bind. reflexivity.
Qed.

Lemma loop_update_order (e : Env) (d : Device) :
  within 1 1 (ranks code_rank (trace (loop_update e) d)) = true /\
  forallb (fun ev => negb (is_restart_event ev)) (trace (loop_update e) d) = true.
Proof.
  pose proof (loop_update_phase e d) as H. split.
  - apply (within_of_phase ModeTimeout), H.
  - apply (no_restart_of_phase ModeTimeout); [discriminate | exact H].
Qed.

(** The trace of a pass: the work of its branch, then the test of [restart]. *)
Lemma loop_split (e : Env) (d : Device) :
  let work := if otaRunning d then loop_update e else loop_normal e in
  trace (loop e) d = trace work d ++ trace loop_restart (exec work d) /\
  exec (loop e) d = exec loop_restart (exec work d).
Proof.
  unfold loop. rewrite exec_bind, trace_bind. cbn [get trace exec val st out app].
  rewrite exec_bind, trace_bind. split; reflexivity.
Qed.

(** The work of a pass outside update mode, part by part. *)
Lemma loop_normal_split (e : Env) (d : Device) :
  let d1 := exec (gpioLoop e) d in
  let d2 := exec (wifimanagerLoop e) d1 in
  let service := when (negb (offline d2)) (mqttLoop e) in
  exec (loop_normal e) d = exec service d2 /\
  trace (loop_normal e) d =
    trace (gpioLoop e) d ++ trace (wifimanagerLoop e) d1 ++ trace service d2 ++
    [Delay LOOP_DELAY_MS].
Proof.
  unfold loop_normal, exec, trace, bind, get, emit.
  destruct (gpioLoop e d) as [[] d1 t1]. cbn [st out val].
  destruct (wifimanagerLoop e d1) as [[] d2 t2]. cbn [st out val].
  destruct (when (negb (offline d2)) (mqttLoop e) d2) as [[] d3 t3]. cbn [st out val app].
  split; reflexivity.
Qed.

(** The calls of a pass in update mode. *)
Lemma loop_update_trace (e : Env) (d : Device) :
  trace (loop_update e) d =
    OtaHandle :: trace (repeat_m (ota_progress e) otaProgress) d ++ [Millis AtOtaTimeout].
Proof.
  unfold loop_update. rewrite trace_bind.
  change (trace (emit OtaHandle) d) with [OtaHandle].
  change (exec (emit OtaHandle) d) with d.
  cbn [app val]. f_equal. rewrite trace_bind. f_equal.
  generalize (exec (repeat_m (ota_progress e) otaProgress) d). intros d1.
  destruct d1 as [? ? ? ? st ? ? ? ? ? ? ? ? ? ? ? ? ? ? ?].
  destruct e as [? ? ? ? ? ? ? ? ? ? ? ? ? ? tm ? ?].
  dozy_unfold. destruct (300000 <? wrap32 (wrap32 tm - st)); reflexivity.
Qed.

Lemma otaProgress_leds (n : nat) : emits is_led_event (repeat_m n otaProgress).
Proof. unfold otaProgress. repeat emits_shape. Qed.

(** C8. In every pass of [loop()] the phases come in the order switch
    input, mode timeout, connectivity, pending restart. Outside update
    mode the pass is, in this order: all of [gpioLoop] (the switch read
    with the relay writes, publishes and gesture timing it causes, and
    nothing of the later phases); all of [wifimanagerLoop], which begins
    with [wifiManager.process()] and tests the provisioning timeout before
    it looks at the WiFi status; the broker service of [mqttLoop] when the
    device is online; the delay. In update mode the pass consists of
    [ArduinoOTA.handle()] with the LED writes of its progress callbacks
    and the timeout test, and of nothing else. The test of [restart]
    follows all other work of the pass, and [ESP.restart()], executed
    exactly when the flag is set by then, is the last event. *)
Theorem pass_order :
  forall (e : Env) (d : Device),
    in_order code_rank (trace (loop e) d) = true /\
    hd_error (trace (loop e) d) =
      Some (if otaRunning d then OtaHandle else DigitalRead SWITCH) /\
    exists work : list Event,
      trace (loop e) d =
        work ++ RestartCheck :: (if restart (exec (loop e) d) then [EspRestart] else []) /\
      forallb (fun ev => negb (is_restart_event ev)) work = true /\
      if otaRunning d then
        exists leds : list Event,
          work = OtaHandle :: leds ++ [Millis AtOtaTimeout] /\
          forallb is_led_event leds = true
      else
        let d1 := exec (gpioLoop e) d in
        let d2 := exec (wifimanagerLoop e) d1 in
        let service := when (negb (offline d2)) (mqttLoop e) in
        work = trace (gpioLoop e) d ++ trace (wifimanagerLoop e) d1 ++
               trace service d2 ++ [Delay LOOP_DELAY_MS] /\
        forallb (of_phase SwitchInput) (trace (gpioLoop e) d) = true /\
        hd_error (trace (wifimanagerLoop e) d1) = Some WmProcess /\
        within 1 2 (ranks code_rank (trace (wifimanagerLoop e) d1)) = true /\
        forallb (of_phase Connectivity) (trace service d2) = true.
Proof.
  intros e d. destruct (loop_split e d) as [Ht Hx]. cbv zeta in Ht, Hx.
  set (work := if otaRunning d then loop_update e else loop_normal e) in *.
  destruct (loop_restart_spec (exec work d)) as (Rt & _ & Rr).
  assert (Hw : within 0 2 (ranks code_rank (trace work d)) = true /\
               forallb (fun ev => negb (is_restart_event ev)) (trace work d) = true /\
               hd_error (trace work d) =
                 Some (if otaRunning d then OtaHandle else DigitalRead SWITCH)).
  { unfold work. destruct (otaRunning d).
    - destruct (loop_update_order e d) as [H1 H2].
      split; [| split; [exact H2 |]].
      + apply (within_weaken 1 1); [lia | lia | exact H1].
      + unfold loop_update. rewrite trace_bind. reflexivity.
    - destruct (loop_normal_order e d) as (H1 & H2 & H3). auto. }
  destruct Hw as (W1 & W2 & W3).
  split; [| split].
  - unfold in_order. rewrite Ht, ranks_app.
    assert (Hr : within 3 3 (ranks code_rank (trace loop_restart (exec work d))) = true).
    { rewrite Rt. destruct (restart (exec work d)); reflexivity. }
    pose proof (within_app 0 2 3 3 _ _ ltac:(lia) ltac:(lia) ltac:(lia) W1 Hr) as H.
    unfold within in H. apply andb_true_iff in H. apply H.
  - rewrite Ht. destruct (trace work d); [discriminate | exact W3].
  - exists (trace work d). split; [| split; [exact W2 |]].
    + rewrite Ht, Rt, Hx, Rr. reflexivity.
    + unfold work. destruct (otaRunning d).
      * exists (trace (repeat_m (ota_progress e) otaProgress) d).
        split; [apply loop_update_trace | apply otaProgress_leds].
      * destruct (loop_normal_split e d) as [_ Nt]. cbv zeta in Nt. cbv zeta.
        split; [exact Nt |].
        split; [apply gpioLoop_phase |].
        split; [unfold wifimanagerLoop; rewrite trace_bind; reflexivity |].
        split; [apply wifimanagerLoop_order |].
        destruct (negb (offline (exec (wifimanagerLoop e) (exec (gpioLoop e) d))));
          cbn [when]; [apply mqttLoop_phase | reflexivity].
Qed.

(** Against the wording of C8 in the specification: in provisioning mode
    the timeout is tested before the network is serviced. *)
Lemma timeout_test_precedes_connectivity :
  wifiManagerSetupRunning provisioning_online = true /\
  trace (loop (tick_online false 30 [])) provisioning_online =
    [DigitalRead SWITCH; WmProcess; Millis AtPortalTimeout; WiFiStatus; MdnsLoop;
     MqttLoop; Delay 10; RestartCheck] /\
  in_order spec_rank (trace (loop (tick_online false 30 [])) provisioning_online) = false /\
  in_order code_rank (trace (loop (tick_online false 30 [])) provisioning_online) = true.
Proof. vm_compute. repeat split; reflexivity. Qed.

(** ** Mode timeouts *)

Lemma wrap32_elapsed (T t : Z) :
  0 <= t - T < 2 ^ 32 -> wrap32 (wrap32 t - wrap32 T) = t - T.
Proof.
  intros H. unfold wrap32. rewrite <- Zminus_mod. apply Z.mod_small. exact H.
Qed.

Lemma holding_frame (ota : bool) (T : Z) (level : bool) :
  (forall v d, holding ota T level d -> holding ota T level (set_pin_LED_RED v d)) /\
  (forall v d, holding ota T level d -> holding ota T level (set_pin_LED_GREEN v d)) /\
  (forall v d, holding ota T level d -> holding ota T level (set_mqtt_connected v d)).
Proof.
  unfold holding, in_mode. split; [| split]; intros v d H; exact H.
Qed.

Lemma otaProgress_holding (ota : bool) (T : Z) (level : bool) :
  preserves (holding ota T level) otaProgress.
Proof.
  destruct (holding_frame ota T level) as (Hr & Hg & _).
  unfold otaProgress, digitalWrite.
  repeat first
    [ preserves_shape
    | apply preserves_modify; intros; first [apply Hr | apply Hg]; assumption ].
Qed.

(** The work of a quiet pass in update mode. *)
Lemma loop_update_quiet (T : Z) (level : bool) (e : Env) (d : Device) :
  holding true T level d ->
  let d' := exec (loop_update e) d in
  let late := OTA_TIMEOUT_MS <? wrap32 (wrap32 (t_ota e) - wrap32 T) in
  restart d' = late /\
  (late = false -> holding true T level d').
Proof.
  intros H. unfold loop_update.
  rewrite exec_bind. cbn [emit exec st val]. rewrite exec_bind.
  pose proof (preserves_repeat_m _ (ota_progress e) _
                (otaProgress_holding true T level) d H) as H2.
  fold (exec (emit OtaHandle) d) in *.
  generalize dependent (exec (repeat_m (ota_progress e) otaProgress) d).
  intros d2 H2. clear H d.
  destruct d2 as [? ? ? o st rst ? ? ? s ? ? ? ? ? ? ? ? ? rb].
  destruct e as [? ? ? ? ? ? ? ? ? ? ? ? ? ? tm ? ?].
  unfold holding, in_mode in *. dozy_unfold.
  destruct H2 as ((-> & ->) & -> & -> & ->).
  destruct (300000 <? wrap32 (wrap32 tm - wrap32 T)); dozy_unfold.
  - split; [reflexivity | discriminate].
  - split; [reflexivity |]. intros _. repeat split; reflexivity.
Qed.

(** The work of a quiet pass in provisioning mode. *)
Lemma loop_normal_quiet (T : Z) (level : bool) (e : Env) (d : Device) :
  holding false T level d ->
  quiet level e ->
  let d' := exec (loop_normal e) d in
  let late := CONFIG_TIMEOUT_MS <? wrap32 (wrap32 (t_portal e) - wrap32 T) in
  restart d' = late /\
  (late = false -> holding false T level d').
Proof.
  intros H Hq.
  destruct d as [off run st o ? rst att del ? s ? ? ? ? ? ? ? conn ? rb].
  destruct e as [sw ? ? ? ? saved tm wifi ? ? ok msgs ? ? ? ? ?].
  unfold holding, in_mode, quiet in *. dozy_unfold.
  destruct H as ((-> & -> & ->) & -> & -> & ->).
  destruct Hq as (-> & -> & ->).
  destruct level; dozy_unfold;
    (destruct (300000 <? wrap32 (wrap32 tm - wrap32 T)); dozy_unfold;
     destruct wifi, off, conn; dozy_run;
     (split; [reflexivity | try discriminate; intros _; repeat split; reflexivity])).
Qed.

Lemma restarted_app (t1 t2 : list Event) :
  restarted (t1 ++ t2) = restarted t1 || restarted t2.
Proof. apply existsb_app. Qed.

Lemma not_restarted (q : Event -> bool) (t : list Event) :
  (forall ev, q ev = true -> is_EspRestart ev = false) ->
  forallb q t = true -> restarted t = false.
Proof.
  intros Hq. induction t as [| ev t IH]; [reflexivity |].
  cbn [forallb]. intros H. apply andb_true_iff in H. destruct H as [Hev Ht].
  unfold restarted. cbn [existsb]. rewrite (Hq ev Hev). exact (IH Ht).
Qed.

Lemma no_restart_event_restarted (t : list Event) :
  forallb (fun ev => negb (is_restart_event ev)) t = true -> restarted t = false.
Proof.
  apply not_restarted. intros ev H. destruct ev; try reflexivity; discriminate H.
Qed.

Lemma between_not_restarted (e : Env) (d : Device) : restarted (trace (between e) d) = false.
Proof.
  apply (not_restarted (fun ev => negb (is_EspRestart ev))).
  - intros ev H. destruct (is_EspRestart ev); [discriminate | reflexivity].
  - revert d. change (emits (fun ev => negb (is_EspRestart ev)) (between e)).
    unfold between, ledTick. repeat emits_shape.
Qed.

(** A quiet pass in either mode: it restarts exactly when the 32-bit time
    since entry exceeds the timeout, as the last thing it does. *)
Lemma pass_quiet (ota : bool) (T : Z) (level : bool) (e : Env) (d : Device) :
  holding ota T level d ->
  quiet level e ->
  let late := 300000 <? wrap32 (wrap32 (mode_clock ota e) - wrap32 T) in
  (late = false ->
   holding ota T level (exec (pass e) d) /\ restarted (trace (pass e) d) = false) /\
  (late = true ->
   rebooted (exec (pass e) d) = true /\
   exists t, trace (pass e) d = t ++ [EspRestart] /\ restarted t = false).
Proof.
  intros H Hq late. unfold pass. rewrite exec_bind, trace_bind.
  destruct (holding_frame ota T level) as (Hr & _ & Hc).
  pose proof (between_frame _ Hr Hc e d H) as H1.
  pose proof (between_not_restarted e d) as Hb.
  set (d1 := exec (between e) d) in *.
  destruct (loop_split e d1) as [Ht Hx]. cbv zeta in Ht, Hx.
  assert (Hota : otaRunning d1 = ota) by apply H1.
  rewrite Hota in Ht, Hx.
  set (work := if ota then loop_update e else loop_normal e) in *.
  assert (Hw : restart (exec work d1) = late /\
               (late = false -> holding ota T level (exec work d1)) /\
               restarted (trace work d1) = false).
  { unfold work, late, mode_clock. destruct ota.
    - destruct (loop_update_quiet T level e d1 H1) as [A B].
      split; [exact A | split; [exact B |]].
      apply no_restart_event_restarted, loop_update_order.
    - destruct (loop_normal_quiet T level e d1 H1 Hq) as [A B].
      split; [exact A | split; [exact B |]].
      apply no_restart_event_restarted, loop_normal_order. }
  destruct Hw as (Wr & Wh & Wt).
  destruct (loop_restart_spec (exec work d1)) as (Rt & Rx & _).
  rewrite Wr in Rt, Rx.
  cbn [val]. rewrite Ht, Hx, Rt, Rx.
  split; intros Hlate; rewrite Hlate.
  - split; [exact (Wh Hlate) |].
    rewrite !restarted_app, Hb, Wt. reflexivity.
  - split; [reflexivity |].
    exists (trace (between e) d ++ trace work d1 ++ [RestartCheck]).
    split; [rewrite <- !app_assoc; reflexivity |].
    rewrite !restarted_app, Hb, Wt. reflexivity.
Qed.

Lemma run_cons (e : Env) (es : list Env) (d : Device) :
  let d1 := exec (pass e) d in
  exec (run (e :: es)) d = (if rebooted d1 then d1 else exec (run es) d1) /\
  trace (run (e :: es)) d =
    trace (pass e) d ++ (if rebooted d1 then [] else trace (run es) d1).
Proof.
  cbn [run]. rewrite exec_bind, trace_bind.
  set (d1 := exec (pass e) d). cbv zeta.
  rewrite exec_bind, trace_bind. cbn [get exec trace val st out app].
  destruct (rebooted d1); split; reflexivity.
Qed.

Lemma run_quiet (ota : bool) (T : Z) (level : bool) (e : Env) (es : list Env) :
  quiet level e ->
  300000 < mode_clock ota e - T < 2 ^ 32 ->
  Forall (quiet level) es ->
  Forall (fun e' => 0 <= mode_clock ota e' - T <= 300000) es ->
  forall d : Device,
    holding ota T level d ->
    restarted (trace (run es) d) = false /\
    holding ota T level (exec (run es) d) /\
    rebooted (exec (run (es ++ [e])) d) = true /\
    exists t, trace (run (es ++ [e])) d = t ++ [EspRestart] /\ restarted t = false.
Proof.
  intros Hq Hlate Hqs Hearly.
  induction es as [| e1 es IH]; intros d H.
  - split; [reflexivity | split; [exact H |]].
    cbn [app]. destruct (run_cons e [] d) as [Hx Ht]. cbv zeta in Hx, Ht.
    destruct (pass_quiet ota T level e d H Hq) as [_ Hl]. cbv zeta in Hl.
    rewrite wrap32_elapsed in Hl by lia.
    destruct Hl as [Hr (t & Htr & Hnr)]; [apply Z.ltb_lt; lia |].
    rewrite Hx, Ht, Hr. cbv iota. rewrite app_nil_r. split; [exact Hr |].
    exists t. split; assumption.
  - inversion_clear Hqs as [| ? ? Hq1 Hqs']. inversion_clear Hearly as [| ? ? He1 Hearly'].
    destruct (pass_quiet ota T level e1 d H Hq1) as [He _]. cbv zeta in He.
    rewrite wrap32_elapsed in He by lia.
    destruct He as [Hh Hnr]; [apply Z.ltb_ge; lia |].
    destruct (IH Hqs' Hearly' _ Hh) as (I1 & I2 & I3 & t & I4 & I5).
    assert (Hrb : rebooted (exec (pass e1) d) = false) by apply Hh.
    destruct (run_cons e1 es d) as [Hx Ht]. cbv zeta in Hx, Ht.
    cbn [app]. destruct (run_cons e1 (es ++ [e]) d) as [Hx' Ht']. cbv zeta in Hx', Ht'.
    rewrite Hx, Ht, Hx', Ht', Hrb. cbv iota.
    split; [rewrite restarted_app, Hnr, I1; reflexivity |].
    split; [exact I2 |]. split; [exact I3 |].
    exists (trace (pass e1) d ++ t). rewrite I4, app_assoc. split; [reflexivity |].
    rewrite restarted_app, Hnr, I5. reflexivity.
Qed.

(** C6. Provisioning or update mode entered at time T and then left
    without input: no pass up to T + 300000 ms restarts the device, and
    the first pass later than that does, as its last action. The test
    compares the 32-bit difference of the counter with the timeout, so
    the times may lie on either side of a wrap of the counter. *)
Theorem timeout_enforcement :
  forall (ota : bool) (T : Z) (d : Device) (es : list Env) (e : Env),
    in_mode ota T d ->
    restart d = false ->
    rebooted d = false ->
    Forall (quiet (sState d)) es ->
    quiet (sState d) e ->
    Forall (fun e' => 0 <= mode_clock ota e' - T <= 300000) es ->
    300000 < mode_clock ota e - T < 2 ^ 32 ->
    restarted (trace (run es) d) = false /\
    rebooted (exec (run es) d) = false /\
    rebooted (exec (run (es ++ [e])) d) = true /\
    exists t, trace (run (es ++ [e])) d = t ++ [EspRestart] /\ restarted t = false.
Proof.
  intros ota T d es e Hm Hr Hb Hqs Hq Hearly Hlate.
  assert (H : holding ota T (sState d) d) by exact (conj Hm (conj Hr (conj Hb eq_refl))).
  destruct (run_quiet ota T (sState d) e es Hq Hlate Hqs Hearly d H) as (A & B & C & D).
  split; [exact A |]. split; [apply B |]. split; [exact C | exact D].
Qed.

Lemma timeout_enforcement_witness :
  let T := 2 ^ 32 - 1000 in
  let es := [tick false (T + 500); tick false (T + 1000); tick false (T + 300000)] in
  wifiManagerSetupStart provisioning_before_wrap = 4294966296 /\
  millis_of (tick false (T + 300001)) = 299001 /\
  rebooted (exec (run es) provisioning_before_wrap) = false /\
  rebooted (exec (run (es ++ [tick false (T + 300001)])) provisioning_before_wrap) = true.
Proof.
  cbv zeta.
  split; [reflexivity |]. split; [reflexivity |].
  refine ((fun H => conj (proj1 (proj2 H)) (proj1 (proj2 (proj2 H))))
            (timeout_enforcement false (2 ^ 32 - 1000) provisioning_before_wrap
               [tick false (2 ^ 32 - 1000 + 500); tick false (2 ^ 32 - 1000 + 1000);
                tick false (2 ^ 32 - 1000 + 300000)]
               (tick false (2 ^ 32 - 1000 + 300001)) _ _ _ _ _ _ _)).
  - repeat split; reflexivity.
  - reflexivity.
  - reflexivity.
  - repeat constructor.
  - repeat split; reflexivity.
  - repeat constructor; cbn; lia.
  - cbn. lia.
Defined.

(** * Further properties of the sketch *)

(** ** Rules for [maintains] *)

Lemma maintains_ret {A : Type} (P : Device -> Prop) (q : Event -> bool) (a : A) :
  maintains P q (ret a).
Proof. intros d H. split; [exact H | reflexivity]. Qed.

Lemma maintains_get (P : Device -> Prop) (q : Event -> bool) : maintains P q get.
Proof. intros d H. split; [exact H | reflexivity]. Qed.

Lemma maintains_modify (P : Device -> Prop) (q : Event -> bool) (f : Device -> Device) :
  (forall d, P d -> P (f d)) -> maintains P q (modify f).
Proof. intros Hf d H. split; [apply Hf, H | reflexivity]. Qed.

Lemma maintains_emit (P : Device -> Prop) (q : Event -> bool) (ev : Event) :
  q ev = true -> maintains P q (emit ev).
Proof. intros Hq d H. split; [exact H |]. unfold trace, emit. cbn. rewrite Hq. reflexivity. Qed.

Lemma maintains_bind {A B : Type} (P : Device -> Prop) (q : Event -> bool)
    (m : M A) (k : A -> M B) :
  maintains P q m -> (forall a, maintains P q (k a)) -> maintains P q (bind m k).
Proof.
  intros Hm Hk d H. rewrite exec_bind, trace_bind, forallb_app.
  destruct (Hm d H) as [H1 T1]. destruct (Hk (val (m d)) _ H1) as [H2 T2].
  rewrite T1, T2. split; [exact H2 | reflexivity].
Qed.

Lemma maintains_when (P : Device -> Prop) (q : Event -> bool) (b : bool) (m : M unit) :
  maintains P q m -> maintains P q (when b m).
Proof. intros Hm. destruct b; [exact Hm | apply maintains_ret]. Qed.

Lemma maintains_repeat_m (P : Device -> Prop) (q : Event -> bool) (n : nat) (m : M unit) :
  maintains P q m -> maintains P q (repeat_m n m).
Proof.
  intros Hm. induction n as [| n IH]; cbn [repeat_m].
  - apply maintains_ret.
  - apply maintains_bind; [exact Hm | intros _; exact IH].
Qed.

Lemma maintains_deliver (P : Device -> Prop) (q : Event -> bool) (e : Env)
    (payloads : list string) :
  (forall p, maintains P q (mqttCallback e p)) -> maintains P q (deliver e payloads).
Proof.
  intros Hc. induction payloads as [| p ps IH]; cbn [deliver].
  - apply maintains_ret.
  - apply maintains_bind; [apply Hc | intros _; exact IH].
Qed.

(** A write outside the fields [P] reads keeps [P]; so does a write of the
    value [P] asks for. *)
Ltac frame_write :=
  let d := fresh "d" in
  let H := fresh "H" in
  intros d H;
  first [ exact H | reflexivity
        | cbn in *; intuition (auto; congruence) ].

(** An event allowed whatever the tests of the state turn out. *)
Ltac allowed_event :=
  first [ reflexivity
        | repeat match goal with
                 | |- context [if ?c then _ else _] => destruct c
                 end; reflexivity ].

(** Follows the shape of a computation, using the facts at hand for the
    functions it calls and opening a function of the sketch otherwise. *)
Ltac maintains_step :=
  match goal with
  | H : maintains _ _ _ |- maintains _ _ _ => exact H
  | H : forall _, maintains _ _ _ |- maintains _ _ _ => apply H
  | H : forall _ _, maintains _ _ _ |- maintains _ _ _ => apply H
  | |- maintains _ _ (bind _ _) => apply maintains_bind; [| intros ?]
  | |- maintains _ _ (ret _) => apply maintains_ret
  | |- maintains _ _ get => apply maintains_get
  | |- maintains _ _ (emit _) => apply maintains_emit; allowed_event
  | |- maintains _ _ (modify _) => apply maintains_modify; frame_write
  | |- maintains _ _ (when (negb true) _) => apply (maintains_ret _ _ tt)
  | |- maintains _ _ (when _ _) => apply maintains_when
  | |- maintains _ _ (repeat_m _ _) => apply maintains_repeat_m
  | |- maintains _ _ (deliver _ _) => apply maintains_deliver; intros ?
  | |- maintains _ _ (if ?c then _ else _) => destruct c
  | |- maintains _ _ (match ?c with _ => _ end) => destruct c
  | |- maintains _ _ (digitalWrite _ _) => unfold digitalWrite; cbv beta iota
  | |- maintains _ _ (?f _ _) => unfold f
  | |- maintains _ _ (?f _) => unfold f
  | |- maintains _ _ ?f => unfold f
  end.

Ltac maintains_all := repeat maintains_step.

(** ** The restart flag *)

(** X1. No function of the sketch clears [restart]: once it is set,
    [gpioLoop], [wifimanagerLoop], [mqttLoop] with whatever commands it
    delivers and the update branch all leave it set, and the pass of
    [loop()] ends with [ESP.restart()]. *)
Theorem restart_is_never_cleared :
  forall (e : Env) (payload : string) (d : Device),
    restart d = true ->
    restart (exec (gpioLoop e) d) = true /\
    restart (exec (wifimanagerLoop e) d) = true /\
    restart (exec (mqttCallback e payload) d) = true /\
    restart (exec (mqttLoop e) d) = true /\
    restart (exec (loop_update e) d) = true /\
    rebooted (exec (loop e) d) = true.
Proof.
  intros e payload d H.
  set (P := fun d' : Device => restart d' = true).
  assert (Hg : maintains P any_event (gpioLoop e)) by (subst P; maintains_all).
  assert (Hw : maintains P any_event (wifimanagerLoop e)) by (subst P; maintains_all).
  assert (Hc : maintains P any_event (mqttCallback e payload)) by (subst P; maintains_all).
  assert (Hm : maintains P any_event (mqttLoop e)) by (subst P; maintains_all).
  assert (Hu : maintains P any_event (loop_update e)) by (subst P; maintains_all).
  assert (Hn : maintains P any_event (loop_normal e)) by (subst P; maintains_all).
  split; [apply (Hg d H) |]. split; [apply (Hw d H) |]. split; [apply (Hc d H) |].
  split; [apply (Hm d H) |]. split; [apply (Hu d H) |].
  destruct (loop_split e d) as [_ Hx]. cbv zeta in Hx.
  set (work := if otaRunning d then loop_update e else loop_normal e) in *.
  assert (H2 : restart (exec work d) = true).
  { unfold work. destruct (otaRunning d); [apply (Hu d H) | apply (Hn d H)]. }
  destruct (loop_restart_spec (exec work d)) as (_ & Rx & _).
  rewrite H2 in Rx. rewrite Hx, Rx. reflexivity.
Qed.

Lemma restart_is_never_cleared_witness :
  restart reset_requested = true /\
  restart (exec (mqttLoop (tick_online true 40 ["1"; "0"])) reset_requested) = true /\
  rebooted (exec (loop (tick_online true 40 ["1"])) reset_requested) = true.
Proof.
  pose proof (restart_is_never_cleared (tick_online true 40 ["1"; "0"]) "1"
                reset_requested eq_refl) as H1.
  pose proof (restart_is_never_cleared (tick_online true 40 ["1"]) "1"
                reset_requested eq_refl) as H2.
  split; [reflexivity |].
  split; [exact (proj1 (proj2 (proj2 (proj2 H1)))) |].
  exact (proj2 (proj2 (proj2 (proj2 (proj2 H2))))).
Defined.

(** ** Switch sampling *)

Lemma gpioLoop_sState (e : Env) (d : Device) :
  sState (exec (gpioLoop e) d) = switch_low e.
Proof.
  destruct (Bool.bool_dec (switch_low e) (sState d)) as [Hs | Hs].
  - destruct (gpioLoop_steady e d Hs) as [Hx _]. rewrite Hx. symmetry. exact Hs.
  - apply gpioLoop_transition. destruct (switch_low e), (sState d); try reflexivity;
      exfalso; apply Hs; reflexivity.
Qed.

Lemma exec_gpio_passes_cons (e : Env) (es : list Env) (d : Device) :
  exec (gpio_passes (e :: es)) d = exec (gpio_passes es) (exec (gpioLoop e) d) /\
  trace (gpio_passes (e :: es)) d =
    trace (gpioLoop e) d ++ trace (gpio_passes es) (exec (gpioLoop e) d).
Proof. cbn [gpio_passes]. rewrite exec_bind, trace_bind. split; reflexivity. Qed.

(** X2. Debouncing by sampling: once a pass of [gpioLoop] has seen the
    switch at a level, further passes at that level change nothing and do
    nothing but read the switch. *)
Theorem stable_level_is_ignored :
  forall (e : Env) (es : list Env) (d : Device),
    Forall (fun e' => switch_low e' = switch_low e) es ->
    let d1 := exec (gpioLoop e) d in
    exec (gpio_passes es) d1 = d1 /\
    trace (gpio_passes es) d1 = List.repeat (DigitalRead SWITCH) (List.length es).
Proof.
  intros e es d Hes d1.
  assert (Hs : sState d1 = switch_low e) by apply gpioLoop_sState.
  clearbody d1. induction Hes as [| e' es He' Hes IH]; [split; reflexivity |].
  destruct (exec_gpio_passes_cons e' es d1) as [Hx Ht].
  destruct (gpioLoop_steady e' d1) as [Sx St]; [congruence |].
  rewrite Hx, Ht, Sx, St. destruct IH as [IH1 IH2]. rewrite IH1, IH2.
  split; reflexivity.
Qed.

Lemma stable_level_is_ignored_witness :
  let d1 := exec (gpioLoop (tick true 1000)) after_setup in
  exec (gpio_passes [tick true 1010; tick true 1020; tick true 1030]) d1 = d1.
Proof.
  apply (stable_level_is_ignored (tick true 1000)
           [tick true 1010; tick true 1020; tick true 1030] after_setup).
  repeat constructor.
Defined.

(** [startWifiManager] leaves the sampled switch level alone. *)
Lemma setup_sState (e : Env) (d : Device) : sState (exec (setup e) d) = switch_low e.
Proof.
  destruct d as [? run ? ? ? ? ? ? ? ? ? ? ? ? ? ? ? ? ? ?].
  destruct e as [sw ? ? ap cfg ? ? ? ? ? ? ? ? ? ? ? ?].
  dozy_unfold. destruct run; dozy_unfold; [reflexivity |].
  destruct cfg, ap; reflexivity.
Qed.

(** X3. The position of the switch at power-up is no transition: the
    first pass of [gpioLoop] after [setup()] that finds the switch where
    [setup()] found it toggles nothing, publishes nothing and does not
    count towards the gesture. *)
Theorem power_up_level_is_no_transition :
  forall (e e' : Env) (d : Device),
    switch_low e' = switch_low e ->
    exec (gpioLoop e') (exec (setup e) d) = exec (setup e) d /\
    trace (gpioLoop e') (exec (setup e) d) = [DigitalRead SWITCH].
Proof.
  intros e e' d H. apply gpioLoop_steady. rewrite setup_sState. exact H.
Qed.

Lemma power_up_level_is_no_transition_witness :
  exec (gpioLoop (tick true 500)) (exec (setup (tick true 0)) boot) =
  exec (setup (tick true 0)) boot.
Proof.
  apply (power_up_level_is_no_transition (tick true 0) (tick true 500) boot).
  reflexivity.
Defined.

(** ** Gesture bursts of any length *)

Lemma gesture_fires_burst (es : list Env) :
  forall (previous c : Z),
    0 <= c ->
    c + Z.of_nat (List.length es) < 2 ^ 31 ->
    Forall (fun g => g <= 499) (gaps previous es) ->
    gesture_fires previous c es =
      map (fun i => if c + Z.of_nat i =? 4 then 1%nat else 0%nat)
          (seq 0 (List.length es)).
Proof.
  induction es as [| e es IH]; intros previous c Hc Hlen Hg; [reflexivity |].
  cbn [gaps] in Hg. inversion_clear Hg as [| ? ? Hg1 Hg2].
  cbn [List.length] in Hlen. rewrite Nat2Z.inj_succ in Hlen.
  cbn [gesture_fires List.length seq map].
  rewrite (gesture_in (gap previous e) c (c + 1) (c + 1 =? 5)) by (first [lia | reflexivity]).
  cbn [fst snd]. rewrite (IH (stamp e) (c + 1)) by (first [lia | assumption]).
  rewrite <- seq_shift, map_map. f_equal.
  - rewrite Z.add_0_r.
    destruct (Z.eqb_spec (c + 1) 5), (Z.eqb_spec c 4); try reflexivity; lia.
  - apply map_ext. intros i. rewrite Nat2Z.inj_succ.
    destruct (Z.eqb_spec (c + 1 + Z.of_nat i) 4), (Z.eqb_spec (c + Z.succ (Z.of_nat i)) 4);
      try reflexivity; lia.
Qed.

(** X4. A burst of transitions, each within 500 ms of the one before,
    calls [startWifiManager(true)] exactly once, at its fifth transition,
    however long the burst goes on: the counter is not reset by the call
    and only meets 5 once. *)
Theorem burst_fires_once :
  forall (es : list Env) (d : Device),
    manualSetupModeCounter d = 0 ->
    alternating (sState d) es ->
    Forall (fun g => g <= 499) (gaps (manualSetupActivatorTime d) es) ->
    Z.of_nat (List.length es) < 2 ^ 31 ->
    fires es d =
      map (fun i => if (i =? 4)%nat then 1%nat else 0%nat) (seq 0 (List.length es)).
Proof.
  intros es d Hc Halt Hg Hlen.
  rewrite fires_gesture by exact Halt. rewrite Hc.
  rewrite gesture_fires_burst by (first [lia | assumption]).
  apply map_ext. intros i. cbn [Z.add].
  destruct (Z.eqb_spec (Z.of_nat i) 4), (Nat.eqb_spec i 4); try reflexivity; lia.
Qed.

Lemma burst_fires_once_witness :
  fires [tick true 100; tick false 200; tick true 300; tick false 400;
         tick true 500; tick false 600; tick true 700; tick false 800] after_setup =
    [0; 0; 0; 0; 1; 0; 0; 0]%nat.
Proof.
  apply (burst_fires_once
           [tick true 100; tick false 200; tick true 300; tick false 400;
            tick true 500; tick false 600; tick true 700; tick false 800] after_setup).
  - reflexivity.
  - cbn. repeat split; reflexivity.
  - repeat constructor; apply Z.leb_le; reflexivity.
  - apply Z.ltb_lt. reflexivity.
Defined.

(** ** Toggling *)

(** X5. Without the momentary option every transition toggles the relay:
    after a run of transitions [lState] is what it was when their number
    is even and its opposite when it is odd, and the relay pin shows
    [lState] as soon as one transition has happened. *)
Theorem toggle_parity :
  forall (es : list Env) (d : Device),
    momentarySwitch d = false ->
    alternating (sState d) es ->
    let d' := exec (gpio_passes es) d in
    lState d' = xorb (lState d) (Nat.odd (List.length es)) /\
    (es <> [] -> pin_RELAY d' = lState d').
Proof.
  induction es as [| e es IH]; intros d Hm Halt d'.
  - subst d'. cbn. rewrite xorb_false_r. split; [reflexivity | congruence].
  - destruct Halt as [Hsw Halt].
    destruct (exec_gpio_passes_cons e es d) as [Hx _].
    destruct (gpioLoop_policy e d Hsw) as (L & R & _ & _ & _ & S & M & _).
    rewrite Hm in L, R, M. cbn [negb orb] in L, R.
    subst d'. rewrite Hx.
    set (d1 := exec (gpioLoop e) d) in *.
    assert (Halt1 : alternating (sState d1) es) by (rewrite S, Hsw; exact Halt).
    destruct (IH d1 M Halt1) as [IL IR]. cbv zeta in IL, IR.
    split.
    + rewrite IL, L. cbn [List.length]. rewrite Nat.odd_succ, <- Nat.negb_odd.
      destruct (lState d), (Nat.odd (List.length es)); reflexivity.
    + intros _. destruct es as [| e2 es]; [cbn; congruence |].
      apply IR. discriminate.
Qed.

Lemma toggle_parity_witness :
  lState (exec (gpio_passes [tick true 1000; tick false 2000; tick true 3000])
            after_setup) = true.
Proof.
  refine (proj1 (toggle_parity [tick true 1000; tick false 2000; tick true 3000]
                   after_setup _ _)).
  - reflexivity.
  - cbn. repeat split; reflexivity.
Defined.

(** ** Relay operations compose *)

(** X6. [enableL] and [disableL] are idempotent on the device, and of two
    in a row the second decides: repeating a command switches nothing, it
    only requests another publish. *)
Theorem relay_ops_compose :
  forall d : Device,
    exec enableL (exec enableL d) = exec enableL d /\
    exec disableL (exec disableL d) = exec disableL d /\
    exec disableL (exec enableL d) = exec disableL d /\
    exec enableL (exec disableL d) = exec enableL d /\
    relay_writes (trace enableL (exec enableL d)) = [HIGH] /\
    requests (trace enableL (exec enableL d)) = [(true, gpioTrigger (exec enableL d))].
Proof.
  intros d. destruct d as [off ? ? ? ? ? ? ? ? ? ? flag ? ? ? ? ? conn ? ?].
  dozy_unfold. destruct off, conn; dozy_unfold; repeat split; reflexivity.
Qed.

(** ** Provisioning mode is only left by a restart *)

Lemma startWifiManager_running (s : Z) (e : Env) (onDemand : bool) :
  maintains (fun d => wifiManagerSetupRunning d = true /\ wifiManagerSetupStart d = s)
    (fun ev => negb (is_portal_start ev)) (startWifiManager e onDemand).
Proof.
  intros d [Hr Hs].
  destruct d as [? run st ? ? ? ? ? ? ? ? ? ? ? ? ? ? ? ? ?].
  dozy_unfold. subst run st. split; [split; reflexivity | reflexivity].
Qed.

(** X7. Once the configuration portal is up, no pass of [loop()] brings
    it up again, clears [wifiManagerSetupRunning] or moves
    [wifiManagerSetupStart]: neither the gesture nor the command "set"
    extends the timeout, and provisioning mode ends with a restart only. *)
Theorem provisioning_is_sticky :
  forall (e : Env) (d : Device),
    wifiManagerSetupRunning d = true ->
    wifiManagerSetupRunning (exec (pass e) d) = true /\
    wifiManagerSetupStart (exec (pass e) d) = wifiManagerSetupStart d /\
    forallb (fun ev => negb (is_portal_start ev)) (trace (pass e) d) = true.
Proof.
  intros e d Hr.
  pose proof (startWifiManager_running (wifiManagerSetupStart d)) as Hs.
  assert (H : maintains
                (fun d' => wifiManagerSetupRunning d' = true /\
                           wifiManagerSetupStart d' = wifiManagerSetupStart d)
                (fun ev => negb (is_portal_start ev)) (pass e)) by maintains_all.
  destruct (H d (conj Hr eq_refl)) as [[H1 H2] H3]. auto.
Qed.

Lemma provisioning_is_sticky_witness :
  wifiManagerSetupStart (exec (pass (tick_set 5000)) provisioning_online) = 20.
Proof.
  refine (proj1 (proj2 (provisioning_is_sticky (tick_set 5000) provisioning_online _))).
  reflexivity.
Defined.

(** ** Update mode *)

(** X8. In update mode a pass of [loop()] only services the update: it
    reads no switch, writes no relay, publishes nothing and services no
    broker; of the device it changes at most the two LEDs, [restart] and
    the executed restart (and the broker connection may drop meanwhile).
    In particular [otaRunning] and [otaStart] stay, so update mode ends
    with a restart only and its timeout cannot be extended. *)
Theorem update_mode_is_frozen :
  forall (e : Env) (d : Device),
    otaRunning d = true ->
    update_view (exec (pass e) d) = update_view d /\
    forallb update_event (trace (pass e) d) = true.
Proof.
  intros e d Hota.
  set (P := fun d' : Device => update_view d' = update_view d).
  assert (Hb : maintains P update_event (between e)) by (subst P; maintains_all).
  assert (Hu : maintains P update_event (loop_update e)) by (subst P; maintains_all).
  assert (Hr : maintains P update_event loop_restart) by (subst P; maintains_all).
  unfold pass. rewrite exec_bind, trace_bind, forallb_app. cbn [val].
  destruct (Hb d eq_refl) as [P1 T1]. set (d1 := exec (between e) d) in *.
  assert (Hota1 : otaRunning d1 = true).
  { unfold P in P1. rewrite <- Hota.
    change (otaRunning (update_view d1) = otaRunning (update_view d)).
    rewrite P1. reflexivity. }
  destruct (loop_split e d1) as [Ht Hx]. cbv zeta in Ht, Hx. rewrite Hota1 in Ht, Hx.
  destruct (Hu d1 P1) as [P2 T2]. destruct (Hr _ P2) as [P3 T3].
  rewrite Hx, Ht, forallb_app, T1, T2, T3. split; [exact P3 | reflexivity].
Qed.

Lemma update_mode_is_frozen_witness :
  update_view (exec (pass (tick_progress 40 3)) updating_on) = update_view updating_on.
Proof.
  refine (proj1 (update_mode_is_frozen (tick_progress 40 3) updating_on _)).
  reflexivity.
Defined.

(** ** Saving the configuration *)

Lemma wifimanagerLoop_saved (e : Env) (d : Device) (checkbox : bool) :
  params_saved e = Some checkbox ->
  restart (exec (wifimanagerLoop e) d) = true /\
  momentarySwitch (exec (wifimanagerLoop e) d) = checkbox.
Proof.
  intros Hs.
  destruct d as [off run ? ? ? ? ? ? ? ? ? ? ? ? ? ? ? ? ? ?].
  destruct e as [? ? ? ? ? saved ? wifi ? ? ? ? ? ? ? ? ?].
  dozy_unfold. subst saved. destruct run, off, wifi; dozy_run; split; reflexivity.
Qed.

(** X9. When the portal saves its parameters during a pass outside update
    mode, the momentary option takes the saved value and the pass ends
    with [ESP.restart()], whatever the broker delivers in between. *)
Theorem saved_configuration_restarts :
  forall (e : Env) (d : Device) (checkbox : bool),
    otaRunning d = false ->
    params_saved e = Some checkbox ->
    rebooted (exec (pass e) d) = true /\
    momentarySwitch (exec (pass e) d) = checkbox.
Proof.
  intros e d checkbox Hota Hs.
  set (P := fun d' : Device => restart d' = true /\ momentarySwitch d' = checkbox).
  assert (Hm : maintains P any_event (mqttLoop e)) by (subst P; maintains_all).
  unfold pass. rewrite exec_bind. cbn [val].
  pose proof (between_otaRunning e d) as Hota1. rewrite Hota in Hota1.
  set (d1 := exec (between e) d) in *.
  destruct (loop_split e d1) as [_ Hx]. cbv zeta in Hx. rewrite Hota1 in Hx.
  rewrite Hx. unfold loop_normal. rewrite !exec_bind. cbn [get val exec st].
  set (d2 := exec (gpioLoop e) d1).
  destruct (wifimanagerLoop_saved e d2 checkbox Hs) as [R M].
  set (d3 := exec (wifimanagerLoop e) d2) in *.
  assert (P3 : P (exec (when (negb (offline d3)) (mqttLoop e)) d3)).
  { destruct (offline d3); cbn [negb when]; [exact (conj R M) |].
    apply (Hm d3 (conj R M)). }
  fold (exec (when (negb (offline d3)) (mqttLoop e)) d3).
  set (d4 := exec (when (negb (offline d3)) (mqttLoop e)) d3) in *.
  change (exec (emit (Delay LOOP_DELAY_MS)) d4) with d4.
  destruct P3 as [R4 M4].
  destruct (loop_restart_spec d4) as (_ & Rx & _). rewrite R4 in Rx. rewrite Rx.
  split; [reflexivity | exact M4].
Qed.

Lemma saved_configuration_restarts_witness :
  rebooted (exec (pass (tick_saved 5000)) provisioning_online) = true /\
  momentarySwitch (exec (pass (tick_saved 5000)) provisioning_online) = true.
Proof.
  apply (saved_configuration_restarts (tick_saved 5000) provisioning_online true);
    reflexivity.
Defined.

(** ** The command "rst" *)

Lemma mqttCallback_restart (e : Env) (payload : string) (d : Device) :
  restart (exec (mqttCallback e payload) d) =
  restart d || startsWith (cmd_of payload) CMD_RESET.
Proof.
  unfold mqttCallback. fold (cmd_of payload). set (cmd := cmd_of payload).
  assert (Hhead : maintains (fun d' => restart d' = restart d) any_event
                    (when (startsWith cmd CMD_SETUP) (startWifiManager e true)))
    by maintains_all.
  rewrite exec_bind. destruct (Hhead d eq_refl) as [H1 _].
  set (d1 := exec (when (startsWith cmd CMD_SETUP) (startWifiManager e true)) d) in *.
  rewrite exec_bind.
  set (d2 := exec (when (startsWith cmd CMD_RESET) (modify (set_restart true))) d1).
  assert (H2 : restart d2 = restart d || startsWith cmd CMD_RESET).
  { subst d2. destruct (startsWith cmd CMD_RESET); cbn [when].
    - rewrite orb_true_r. reflexivity.
    - rewrite orb_false_r. exact H1. }
  rewrite <- H2.
  match goal with
  | |- restart (exec ?m _) = _ =>
      assert (Htail : maintains (fun d' => restart d' = restart d2) any_event m)
        by maintains_all
  end.
  apply (Htail d2 eq_refl).
Qed.

(** X10. After the broker has delivered a batch of payloads [restart] is
    set exactly when it was set before or one of the payloads starts with
    "rst"; the commands that follow in the batch do not clear it. *)
Theorem reset_command_in_batch :
  forall (e : Env) (payloads : list string) (d : Device),
    restart (exec (deliver e payloads) d) =
    restart d || existsb (fun p => startsWith (cmd_of p) CMD_RESET) payloads.
Proof.
  intros e payloads. induction payloads as [| p ps IH]; intros d.
  - cbn. rewrite orb_false_r. reflexivity.
  - cbn [deliver existsb]. rewrite exec_bind, IH, mqttCallback_restart.
    rewrite orb_assoc. reflexivity.
Qed.

(** ** The backoff delay stays in range *)

Lemma any_event_all (t : list Event) : forallb any_event t = true.
Proof. induction t as [| ev t IH]; [reflexivity | exact IH]. Qed.

Lemma mqttReconnect_bounded (e : Env) :
  maintains backoff_bounded any_event (mqttReconnect e).
Proof.
  intros d (k & Hk & Hd). split; [| apply any_event_all].
  destruct (mqttReconnect_step e d) as (_ & _ & _ & Hdel & _).
  assert (Hw : wrap32 (mqttConnectDelay d + 1000) = 1000 * (k + 1))
    by (unfold wrap32; rewrite Z.mod_small; lia).
  rewrite Hw in Hdel. unfold backoff_bounded. rewrite Hdel.
  destruct (negb (mqtt_connected d) && (mqttConnectDelay d <? since_attempt d e)).
  - destruct (connect_ok e); [exists 0; lia |].
    destruct (60000 <? 1000 * (k + 1)) eqn:Hcap;
      [exists 60; lia | apply Z.ltb_ge in Hcap; exists (k + 1); lia].
  - exists k. auto.
Qed.

(** X11. [mqttConnectDelay] is a whole number of seconds between 0 and 60
    before and after every pass of [loop()], and so throughout every run
    that starts with [setup()] on the freshly booted device. *)
Theorem backoff_stays_bounded :
  (forall (e : Env) (d : Device),
     backoff_bounded d -> backoff_bounded (exec (pass e) d)) /\
  (forall (e0 : Env) (es : list Env),
     backoff_bounded (exec (setup e0;; run es) boot)).
Proof.
  pose proof mqttReconnect_bounded as Hrec.
  assert (Hpass : forall e, maintains backoff_bounded any_event (pass e))
    by (intros e; maintains_all).
  assert (Hsetup : forall e, maintains backoff_bounded any_event (setup e))
    by (intros e; maintains_all).
  split; [intros e d H; apply (Hpass e d H) |].
  intros e0 es. rewrite exec_bind. cbn [val].
  assert (H0 : backoff_bounded (exec (setup e0) boot)).
  { apply (Hsetup e0 boot). exists 0. split; [lia | reflexivity]. }
  generalize dependent (exec (setup e0) boot). clear Hsetup.
  induction es as [| e es IH]; intros d H; [exact H |].
  destruct (run_cons e es d) as [Hx _]. cbv zeta in Hx. rewrite Hx.
  destruct (Hpass e d H) as [H1 _].
  destruct (rebooted (exec (pass e) d)); [exact H1 | apply IH, H1].
Qed.

Lemma backoff_stays_bounded_witness :
  backoff_bounded (exec (pass (tick_online false 40 [])) online_idle).
Proof.
  apply (proj1 backoff_stays_bounded). exists 0. split; [lia | reflexivity].
Defined.

(** ** What the dispatcher reads of a payload *)

Lemma substring_min (s : string) :
  forall n : nat, substring 0 (Nat.min (String.length s) n) s = substring 0 n s.
Proof.
  induction s as [| c s IH]; intros [| n]; try reflexivity.
  cbn [String.length Nat.min substring]. rewrite IH. reflexivity.
Qed.

Lemma prefix_nil (s : string) : prefix EmptyString s = true.
Proof. destruct s; reflexivity. Qed.

Lemma prefix_c_str_substring (s : string) :
  forall (k : string) (n : nat),
    (String.length k <= n)%nat ->
    prefix k (c_str (substring 0 n s)) = prefix k (c_str s).
Proof.
  induction s as [| c s IH]; intros k n Hk.
  - destruct n; reflexivity.
  - destruct k as [| a k]; [rewrite !prefix_nil; reflexivity |].
    destruct n as [| n]; [cbn in Hk; lia |].
    cbn [substring c_str]. destruct (Ascii.eqb c zero); [reflexivity |].
    cbn [prefix]. destruct (ascii_dec a c); [| reflexivity].
    apply IH. cbn in Hk. lia.
Qed.

Lemma keyword_short (c : Command) : (String.length (keyword c) <= 3)%nat.
Proof. destruct c; cbn; lia. Qed.

Lemma startsWith_cmd_of (payload : string) (c : Command) :
  startsWith (cmd_of payload) (keyword c) = startsWith (c_str payload) (keyword c).
Proof.
  unfold startsWith, cmd_of, strncpy. rewrite substring_min.
  apply prefix_c_str_substring. pose proof (keyword_short c). lia.
Qed.

(** X12. The dispatcher decides on the first three bytes of a payload:
    whatever follows them, and so the cut of the payload to 9 bytes, has
    no influence on what [mqttCallback] does. *)
Theorem dispatch_reads_three_bytes :
  forall (e : Env) (payload : string) (d : Device),
    mqttCallback e payload d = mqttCallback e (substring 0 3 payload) d.
Proof.
  intros e payload d. rewrite !mqttCallback_matched. f_equal.
  unfold matched. apply filter_ext. intros c.
  rewrite !startsWith_cmd_of. unfold startsWith.
  symmetry. apply prefix_c_str_substring, keyword_short.
Qed.

(** X13. A payload that is empty or whose first byte is none of s, r, o,
    1 and 0 (an upper-case keyword, say) is ignored: [mqttCallback]
    leaves the device as it is and calls nothing. *)
Theorem unknown_payload_ignored :
  forall (e : Env) (payload : string) (d : Device),
    unknown_start payload = true ->
    mqttCallback e payload d = ret tt d.
Proof.
  intros e payload d H. rewrite mqttCallback_matched.
  assert (Hm : matched (cmd_of payload) = []); [| rewrite Hm; reflexivity].
  unfold matched. rewrite (filter_ext _ (fun c => startsWith (c_str payload) (keyword c)))
    by (intros c; apply startsWith_cmd_of).
  destruct payload as [| a rest]; [reflexivity |].
  cbn [c_str]. destruct (Ascii.eqb a zero); [reflexivity |].
  cbn [unknown_start existsb] in H. apply negb_true_iff in H.
  repeat (apply orb_false_iff in H; destruct H as [? H]).
  unfold command_order. cbn [filter keyword].
  unfold CMD_SETUP, CMD_RESET, CMD_OTA, CMD_ON, CMD_OFF.
  repeat match goal with
         | |- context [startsWith (String a ?s) (String ?k ?r)] =>
             let E := fresh "E" in
             destruct (startsWith (String a s) (String k r)) eqn:E;
             [ apply startsWith_head in E; subst a; discriminate | ]
         end.
  reflexivity.
Qed.

Lemma unknown_payload_ignored_witness :
  exec (mqttCallback (tick false 30) "SET") online_idle = online_idle.
Proof.
  unfold exec.
  rewrite (unknown_payload_ignored (tick false 30) "SET" online_idle); reflexivity.
Defined.

(** ** The state channel *)

(** X14. Whatever happens in a pass of [loop()], every payload it hands
    to [mqttClient.publish] is one of "0", "1", "0." and "1.". *)
Theorem published_payloads_well_formed :
  forall (e : Env) (d : Device),
    forallb state_payload (trace (pass e) d) = true.
Proof.
  intros e d.
  assert (H : maintains (fun _ => True) state_payload (pass e)) by maintains_all.
  apply (H d I).
Qed.

(** ** No network service without WiFi *)

Lemma wifimanagerLoop_wifi_down (e : Env) (d : Device) :
  wifi_connected e = false ->
  offline (exec (wifimanagerLoop e) d) = true /\
  forallb (fun ev => negb (is_network_service ev)) (trace (wifimanagerLoop e) d) = true.
Proof.
  intros Hw.
  destruct d as [off run ? ? ? ? ? ? ? ? ? ? ? ? ? ? ? ? ? ?].
  destruct e as [? ? ? ? ? saved ? wifi ? ? ? ? ? ? ? ? ?].
  dozy_unfold. subst wifi. destruct saved, run, off; dozy_run; split; reflexivity.
Qed.

(** X15. A pass of [loop()] outside update mode that finds WiFi down
    marks the device offline and services neither mDNS nor the broker: no
    connect attempt is made and no inbound command is processed. *)
Theorem no_network_service_without_wifi :
  forall (e : Env) (d : Device),
    otaRunning d = false ->
    wifi_connected e = false ->
    offline (exec (loop e) d) = true /\
    forallb (fun ev => negb (is_network_service ev)) (trace (loop e) d) = true.
Proof.
  intros e d Hota Hw.
  set (q := fun ev => negb (is_network_service ev)).
  assert (Hg : maintains (fun _ => True) q (gpioLoop e)) by (subst q; maintains_all).
  assert (Hr : maintains (fun d' => offline d' = true) q loop_restart)
    by (subst q; maintains_all).
  destruct (loop_split e d) as [Ht Hx]. cbv zeta in Ht, Hx. rewrite Hota in Ht, Hx.
  destruct (loop_normal_split e d) as [Nx Nt]. cbv zeta in Nx, Nt.
  destruct (Hg d I) as [_ Tg]. set (d1 := exec (gpioLoop e) d) in *.
  destruct (wifimanagerLoop_wifi_down e d1 Hw) as [Ho Tw].
  set (d2 := exec (wifimanagerLoop e) d1) in *.
  rewrite Ho in Nx, Nt. cbn [negb when] in Nx, Nt.
  change (exec (ret tt) d2) with d2 in Nx. change (trace (ret tt) d2) with (@nil Event) in Nt.
  rewrite Hx, Ht, Nx, Nt.
  destruct (Hr d2 Ho) as [Hoff Tr].
  split; [exact Hoff |].
  fold q in Tw. rewrite !forallb_app. fold q. rewrite Tg, Tw, Tr. reflexivity.
Qed.

Lemma no_network_service_without_wifi_witness :
  offline (exec (loop (tick true 5000)) online_idle) = true.
Proof.
  refine (proj1 (no_network_service_without_wifi (tick true 5000) online_idle _ _));
    reflexivity.
Defined.

(** ** Connect attempts per pass *)

Lemma connects_none (t : list Event) :
  forallb (fun ev => negb (is_MqttConnect ev)) t = true -> connects t = O.
Proof.
  induction t as [| ev t IH]; [reflexivity |].
  cbn [forallb]. intros H. apply andb_true_iff in H. destruct H as [Hev Ht].
  destruct ev; try discriminate Hev; cbn [connects]; exact (IH Ht).
Qed.

Lemma mqttLoop_connects (e : Env) (d : Device) :
  (connects (trace (mqttLoop e) d) <= 1)%nat.
Proof.
  assert (Hl : maintains (fun _ => True) (fun ev => negb (is_MqttConnect ev))
                 (mqttClient_loop e)) by maintains_all.
  unfold mqttLoop. rewrite trace_bind. cbn [get trace exec val st out app].
  destruct (negb (mqtt_connected d)).
  - rewrite trace_bind, connects_app.
    destruct (mqttReconnect_step e d) as (Hn & _).
    rewrite Hn.
    assert (Hrest : connects
              (trace (if negb (val (mqttReconnect e d)) then ret tt else mqttClient_loop e)
                 (exec (mqttReconnect e) d)) = O).
    { destruct (negb (val (mqttReconnect e d))); [reflexivity |].
      apply connects_none, Hl. exact I. }
    rewrite Hrest.
    destruct (negb (mqtt_connected d) && (mqttConnectDelay d <? since_attempt d e)); lia.
  - rewrite (connects_none _ (proj2 (Hl d I))). lia.
Qed.

(** X16. A pass of [loop()] calls [mqttClient.connect] at most once. *)
Theorem one_connect_attempt_per_pass :
  forall (e : Env) (d : Device), (connects (trace (pass e) d) <= 1)%nat.
Proof.
  intros e d.
  set (q := fun ev => negb (is_MqttConnect ev)).
  assert (Hb : maintains (fun _ => True) q (between e)) by (subst q; maintains_all).
  assert (Hu : maintains (fun _ => True) q (loop_update e)) by (subst q; maintains_all).
  assert (Hg : maintains (fun _ => True) q (gpioLoop e)) by (subst q; maintains_all).
  assert (Hw : maintains (fun _ => True) q (wifimanagerLoop e)) by (subst q; maintains_all).
  assert (Hr : maintains (fun _ => True) q loop_restart) by (subst q; maintains_all).
  unfold pass. rewrite trace_bind, connects_app.
  rewrite (connects_none _ (proj2 (Hb d I))). cbn [val Nat.add].
  set (d1 := exec (between e) d).
  destruct (loop_split e d1) as [Ht _]. cbv zeta in Ht. rewrite Ht, connects_app.
  rewrite (connects_none (trace loop_restart _) (proj2 (Hr _ I))), Nat.add_0_r.
  destruct (otaRunning d1).
  - rewrite (connects_none _ (proj2 (Hu d1 I))). lia.
  - destruct (loop_normal_split e d1) as [_ Nt]. cbv zeta in Nt.
    rewrite Nt, !connects_app.
    rewrite (connects_none _ (proj2 (Hg d1 I))).
    rewrite (connects_none _ (proj2 (Hw _ I))).
    cbn [connects Nat.add]. rewrite Nat.add_0_r.
    destruct (negb (offline (exec (wifimanagerLoop e) (exec (gpioLoop e) d1))));
      cbn [when]; [apply mqttLoop_connects | cbn; lia].
Qed.

(** ** Timeouts under input *)

Lemma wifimanagerLoop_late (e : Env) (d : Device) :
  wifiManagerSetupRunning d = true ->
  CONFIG_TIMEOUT_MS < wrap32 (wrap32 (t_portal e) - wifiManagerSetupStart d) ->
  restart (exec (wifimanagerLoop e) d) = true.
Proof.
  intros Hr Hl. apply Z.ltb_lt in Hl.
  destruct d as [off run st ? ? ? ? ? ? ? ? ? ? ? ? ? ? ? ? ?].
  destruct e as [? ? ? ? ? saved tm wifi ? ? ? ? ? ? ? ? ?].
  dozy_unfold. subst run. destruct saved; dozy_unfold; rewrite Hl; dozy_unfold;
    destruct wifi, off; reflexivity.
Qed.

Lemma loop_update_late (e : Env) (d : Device) :
  OTA_TIMEOUT_MS < wrap32 (wrap32 (t_ota e) - otaStart d) ->
  restart (exec (loop_update e) d) = true.
Proof.
  intros Hl. apply Z.ltb_lt in Hl.
  assert (Hp : maintains (fun d' => otaStart d' = otaStart d) any_event
                 (repeat_m (ota_progress e) otaProgress)) by maintains_all.
  unfold loop_update. rewrite exec_bind. cbn [emit exec st val]. rewrite exec_bind.
  fold (exec (emit OtaHandle) d).
  change (exec (emit OtaHandle) d) with d.
  destruct (Hp d eq_refl) as [Hs _].
  set (d1 := exec (repeat_m (ota_progress e) otaProgress) d) in *.
  rewrite <- Hs in Hl. clearbody d1. clear Hs Hp.
  destruct d1 as [? ? ? ? st ? ? ? ? ? ? ? ? ? ? ? ? ? ? ?].
  destruct e as [? ? ? ? ? ? ? ? ? ? ? ? ? ? tm ? ?].
  dozy_unfold. rewrite Hl. reflexivity.
Qed.

(** X17. Input cannot postpone a timeout: whatever the switch does and
    whatever the broker delivers, a pass of [loop()] that tests the
    timeout of the running mode more than 300000 ms (by the 32-bit
    counter) after the mode was entered ends with [ESP.restart()]. *)
Theorem timeout_under_input :
  forall (e : Env) (d : Device),
    (if otaRunning d
     then OTA_TIMEOUT_MS < wrap32 (wrap32 (t_ota e) - otaStart d)
     else wifiManagerSetupRunning d = true /\
          CONFIG_TIMEOUT_MS < wrap32 (wrap32 (t_portal e) - wifiManagerSetupStart d)) ->
    rebooted (exec (loop e) d) = true.
Proof.
  intros e d H.
  destruct (loop_split e d) as [_ Hx]. cbv zeta in Hx. rewrite Hx.
  assert (Hrestart : restart (exec (if otaRunning d then loop_update e else loop_normal e) d)
                     = true).
  { destruct (otaRunning d).
    - apply loop_update_late, H.
    - destruct H as [Hr Hl].
      pose proof (startWifiManager_running (wifiManagerSetupStart d)) as Hs.
      assert (Hg : maintains
                     (fun d' => wifiManagerSetupRunning d' = true /\
                                wifiManagerSetupStart d' = wifiManagerSetupStart d)
                     (fun ev => negb (is_portal_start ev)) (gpioLoop e)) by maintains_all.
      destruct (Hg d (conj Hr eq_refl)) as [[R1 S1] _].
      destruct (loop_normal_split e d) as [Nx _]. cbv zeta in Nx. rewrite Nx.
      set (d1 := exec (gpioLoop e) d) in *.
      rewrite <- S1 in Hl.
      pose proof (wifimanagerLoop_late e d1 R1 Hl) as R2.
      set (d2 := exec (wifimanagerLoop e) d1) in *.
      assert (Hm : maintains (fun d' => restart d' = true) any_event (mqttLoop e))
        by maintains_all.
      destruct (offline d2); cbn [negb when]; [exact R2 | apply (Hm d2 R2)]. }
  destruct (loop_restart_spec (exec (if otaRunning d then loop_update e else loop_normal e) d))
    as (_ & Rx & _).
  rewrite Hrestart in Rx. rewrite Rx. reflexivity.
Qed.

Lemma timeout_under_input_witness :
  rebooted (exec (loop (tick_busy 400000)) provisioning_online) = true.
Proof.
  apply (timeout_under_input (tick_busy 400000) provisioning_online).
  cbn. split; [reflexivity | apply Z.ltb_lt; reflexivity].
Defined.

(** ** The switch without a broker *)

(** X18. While the device is offline or the broker is not connected the
    switch still works the relay, but a transition publishes nothing and
    leaves [gpioTrigger] set for the next publish that goes out. *)
Theorem switch_works_offline :
  forall (e : Env) (d : Device),
    online d = false ->
    switch_low e = negb (sState d) ->
    let d' := exec (gpioLoop e) d in
    lState d' =
      (if negb (momentarySwitch d) || switch_low e then negb (lState d) else lState d) /\
    publishes (trace (gpioLoop e) d) = [] /\
    gpioTrigger d' = true.
Proof.
  intros e d Hoff Hsw d'.
  destruct (gpioLoop_policy e d Hsw) as (L & _ & _ & _ & Pb & _). cbv zeta in L, Pb.
  rewrite Hoff in Pb. fold d' in L.
  split; [exact L |]. split; [exact Pb |].
  subst d'.
  destruct d as [off run ? ? ? ? ? ? mom s l flag tm cnt ? ? ? conn ? ?].
  destruct e as [sw ? ? ap ? ? ? ? ? ? ? ? ? ? ? ? ?].
  dozy_unfold. subst sw.
  destruct off, conn; try discriminate Hoff;
    destruct s, mom, l; dozy_run; reflexivity.
Qed.

Lemma switch_works_offline_witness :
  lState (exec (gpioLoop (tick true 1000)) after_setup) = true /\
  publishes (trace (gpioLoop (tick true 1000)) after_setup) = [] /\
  gpioTrigger (exec (gpioLoop (tick true 1000)) after_setup) = true.
Proof.
  pose proof (switch_works_offline (tick true 1000) after_setup eq_refl eq_refl) as H.
  cbv zeta in H. destruct H as (H1 & H2 & H3).
  repeat split; assumption.
Defined.

(** ** The indicator LEDs *)

Lemma otaProgress_exec (d : Device) :
  exec otaProgress d =
  set_pin_LED_GREEN (pin_LED_RED d) (set_pin_LED_RED (negb (pin_LED_RED d)) d).
Proof.
  destruct d as [? ? ? ? ? ? ? ? ? ? ? ? ? ? ? ? red ? ? ?].
  dozy_unfold. destruct red; reflexivity.
Qed.

(** X19. The indicator LEDs blink: two calls of [ledTick] leave the
    device as it was, and from the first progress callback of an update
    on the red and the green LED always show opposite levels, the red one
    changing with every callback. *)
Theorem leds_blink :
  forall (n : nat) (d : Device),
    exec ledTick (exec ledTick d) = d /\
    let d' := exec (repeat_m (S n) otaProgress) d in
    pin_LED_GREEN d' = negb (pin_LED_RED d') /\
    pin_LED_RED d' = xorb (pin_LED_RED d) (Nat.even n).
Proof.
  intros n d. split.
  - destruct d as [? ? ? ? ? ? ? ? ? ? ? ? ? ? ? ? red ? ? ?].
    dozy_unfold. destruct red; reflexivity.
  - revert d. induction n as [| n IH]; intros d.
    + cbn [repeat_m]. rewrite exec_bind. cbn [repeat_m ret exec st].
      fold (exec otaProgress d). rewrite otaProgress_exec. cbn.
      destruct (pin_LED_RED d); split; reflexivity.
    + change (repeat_m (S (S n)) otaProgress)
        with (otaProgress;; repeat_m (S n) otaProgress).
      cbv zeta. rewrite exec_bind. cbn [val].
      destruct (IH (exec otaProgress d)) as [G R]. cbv zeta in G, R.
      split; [exact G |].
      rewrite R, otaProgress_exec, Nat.even_succ, <- Nat.negb_even. cbn.
      destruct (pin_LED_RED d), (Nat.even n); reflexivity.
Qed.
